(** * WARCParser: the streaming WARC record recogniser of node-warc

    A shallow embedding of [src/lib/parsers/warcParser.js].  The parser is a
    JavaScript class whose methods mutate [this] and whose stream handlers
    close over three local variables of [start]; here every method and
    handler is a function from parser state to parser state, and the
    notifications sent with [emit] and the lines written with [console.log]
    are appended to two output fields of that state.  Listeners are code of
    the caller and are not run here. *)

From Stdlib.Strings Require Import String Byte.
From Stdlib Require Import List Bool Arith Lia.
Import ListNotations.

Set Implicit Arguments.

(** ** Buffers *)

(** A Node [Buffer] is a finite sequence of bytes. *)
Definition Buffer := list byte.

(** [a.equals(b)]: byte-for-byte equality of two buffers. *)
Fixpoint equals (a b : Buffer) : bool :=
  match a, b with
  | [], [] => true
  | x :: a', y :: b' => Byte.eqb x y && equals a' b'
  | _, _ => false
  end.

(** A buffer holding the bytes of a string literal, [Buffer.from(s)]. *)
Definition buf (s : string) : Buffer := list_byte_of_string s.

(** ** The sentinel table *)

(** The table [warcFieldIdentifiers] required from [./fieldIdentifiers]:
    the parser only reads these seven entries and compares lines with them. *)
Record FieldIdentifiers := {
  begin : Buffer;
  empty : Buffer;
  req : Buffer;
  res : Buffer;
  revisit : Buffer;
  info : Buffer;
  mdata : Buffer
}.

(** ** Records and the record builder *)

Inductive RecordType := Request | Response | Revisit | Info | Metadata | Unknown.

(** Modelled from the spec: the record classes built by [buildRecord] live in
    files that are not part of the sources at hand.  A RecordModel has a type
    tag, header fields (name and value, in insertion order) and the payload
    as the sequence of raw lines that were appended to it. *)
Record RecordModel := {
  type : RecordType;
  headers : list (Buffer * Buffer);
  payload : list Buffer
}.

(** The record without type, headers or payload. *)
Definition unknown_record : RecordModel :=
  {| type := Unknown; headers := []; payload := [] |}.

(** The operations of [WARCRecorderBuilder] (required from
    [../warcRecordBuilder]) that the parser calls.  [B] is the state of a
    builder object and [K] the type of the keys handed out by the [init]
    operations; a builder key variable of the parser holds [None] while it is
    [undefined].  [lastBegin] is passed as an option for the same reason. *)
Class RecordBuilder (B K : Type) := {
  newBuilder : B;
  initReq : B -> option Buffer -> Buffer -> B * K;
  initRes : B -> option Buffer -> Buffer -> B * K;
  initRevist : B -> option Buffer -> Buffer -> B * K;
  initInfo : B -> option Buffer -> Buffer -> B * K;
  initMdata : B -> option Buffer -> Buffer -> B * K;
  addLineTo : B -> option K -> nat -> Buffer -> B;
  buildRecord : B -> option K -> RecordModel;
  clear : B -> B
}.

(** ** Values of the JavaScript side that the parser handles *)

(** What the field [_wp] and the argument of [parseWARC] can hold. *)
Inductive PathValue :=
| path_null
| path_undefined
| path_string (s : string).

(** JavaScript truthiness of a path value: [null], [undefined] and the empty
    string are falsy. *)
Definition truthy (v : PathValue) : bool :=
  match v with
  | path_string s => negb (String.eqb s EmptyString)
  | _ => false
  end.

(** [a || b] *)
Definition js_or (a b : PathValue) : PathValue := if truthy a then a else b.

(** The stream returned by [fs.createReadStream]: the path it was opened on
    and whether [destroy] has been called on it. *)
Record ReadStream := {
  rs_path : string;
  destroyed : bool
}.

Definition createReadStream (path : string) : ReadStream :=
  {| rs_path := path; destroyed := false |}.

Definition destroy (s : ReadStream) : ReadStream :=
  {| rs_path := rs_path s; destroyed := true |}.

(** What a call returns: [undefined] when the function body ends without a
    [return], or a boolean. *)
Inductive JsValue :=
| js_undefined
| js_bool (b : bool).

(** How a call completes. *)
Inductive Completion :=
| Return (v : JsValue)
| Throw (message : string).

(** The notifications of the parser: [emit('record', r)], [emit('done', r)]
    and [emit('error', e)].  An error value is represented by its message. *)
Inductive Event :=
| EvRecord (r : RecordModel)
| EvDone (r : RecordModel)
| EvError (e : string).

(** What the line-splitting transport delivers to the handlers installed by
    [start]: ['data'], ['error'] and ['end']. *)
Inductive StreamEvent :=
| Data (line : Buffer)
| StreamError (e : string)
| End.

(** ** The parser *)

Section Parser.

Context {B K : Type} {builder_ops : RecordBuilder B K}.

(** The sentinel table and [untildify] (an external package that expands a
    leading tilde of a path) are taken as they come. *)
Variable warcFieldIdentifiers : FieldIdentifiers.
Variable untildify : string -> string.

(** The state of one [WARCParser] object.  The first eight fields are the
    fields the constructor declares ([_crlfCounter] is the [count] of the
    counter object, a number that starts at 0 and is only reset to 0 or
    increased by 1).  [lastBegin] and [buildKey] are the variables declared
    with [let] in [start] and shared by the handlers of the session that
    [start] opens; [None] is [undefined].  [emitted] and [console] collect,
    oldest first, what the parser has sent with [emit] and written with
    [console.log]. *)
Record WARCParser := mkParser {
  _wp : PathValue;
  _readStream : option ReadStream;
  _checkRecType : bool;
  _foundType : bool;
  _starting : bool;
  _parsing : bool;
  _crlfCounter : nat;
  _builder : B;
  lastBegin : option Buffer;
  buildKey : option K;
  emitted : list Event;
  console : list Buffer
}.

Definition set_wp (v : PathValue) (p : WARCParser) : WARCParser :=
  mkParser v (_readStream p) (_checkRecType p) (_foundType p) (_starting p) (_parsing p)
    (_crlfCounter p) (_builder p) (lastBegin p) (buildKey p) (emitted p) (console p).

Definition set_readStream (v : option ReadStream) (p : WARCParser) : WARCParser :=
  mkParser (_wp p) v (_checkRecType p) (_foundType p) (_starting p) (_parsing p)
    (_crlfCounter p) (_builder p) (lastBegin p) (buildKey p) (emitted p) (console p).

Definition set_checkRecType (v : bool) (p : WARCParser) : WARCParser :=
  mkParser (_wp p) (_readStream p) v (_foundType p) (_starting p) (_parsing p)
    (_crlfCounter p) (_builder p) (lastBegin p) (buildKey p) (emitted p) (console p).

Definition set_foundType (v : bool) (p : WARCParser) : WARCParser :=
  mkParser (_wp p) (_readStream p) (_checkRecType p) v (_starting p) (_parsing p)
    (_crlfCounter p) (_builder p) (lastBegin p) (buildKey p) (emitted p) (console p).

Definition set_starting (v : bool) (p : WARCParser) : WARCParser :=
  mkParser (_wp p) (_readStream p) (_checkRecType p) (_foundType p) v (_parsing p)
    (_crlfCounter p) (_builder p) (lastBegin p) (buildKey p) (emitted p) (console p).

Definition set_parsing (v : bool) (p : WARCParser) : WARCParser :=
  mkParser (_wp p) (_readStream p) (_checkRecType p) (_foundType p) (_starting p) v
    (_crlfCounter p) (_builder p) (lastBegin p) (buildKey p) (emitted p) (console p).

Definition set_crlfCounter (v : nat) (p : WARCParser) : WARCParser :=
  mkParser (_wp p) (_readStream p) (_checkRecType p) (_foundType p) (_starting p) (_parsing p)
    v (_builder p) (lastBegin p) (buildKey p) (emitted p) (console p).

Definition set_builder (v : B) (p : WARCParser) : WARCParser :=
  mkParser (_wp p) (_readStream p) (_checkRecType p) (_foundType p) (_starting p) (_parsing p)
    (_crlfCounter p) v (lastBegin p) (buildKey p) (emitted p) (console p).

Definition set_lastBegin (v : option Buffer) (p : WARCParser) : WARCParser :=
  mkParser (_wp p) (_readStream p) (_checkRecType p) (_foundType p) (_starting p) (_parsing p)
    (_crlfCounter p) (_builder p) v (buildKey p) (emitted p) (console p).

Definition set_buildKey (v : option K) (p : WARCParser) : WARCParser :=
  mkParser (_wp p) (_readStream p) (_checkRecType p) (_foundType p) (_starting p) (_parsing p)
    (_crlfCounter p) (_builder p) (lastBegin p) v (emitted p) (console p).

(** [this.emit(...)] *)
Definition emit (e : Event) (p : WARCParser) : WARCParser :=
  mkParser (_wp p) (_readStream p) (_checkRecType p) (_foundType p) (_starting p) (_parsing p)
    (_crlfCounter p) (_builder p) (lastBegin p) (buildKey p) (emitted p ++ [e]) (console p).

(** [console.log('unknown warc type', line, line.toString())] *)
Definition console_log (line : Buffer) (p : WARCParser) : WARCParser :=
  mkParser (_wp p) (_readStream p) (_checkRecType p) (_foundType p) (_starting p) (_parsing p)
    (_crlfCounter p) (_builder p) (lastBegin p) (buildKey p) (emitted p) (console p ++ [line]).

(** [new WARCParser(wp)]; the parameter defaults to [null] when it is
    [undefined]. *)
Definition new_WARCParser (wp : PathValue) : WARCParser :=
  {| _wp := match wp with path_undefined => path_null | _ => wp end;
     _readStream := None;
     _checkRecType := false;
     _foundType := false;
     _starting := true;
     _parsing := false;
     _crlfCounter := 0;
     _builder := newBuilder;
     lastBegin := None;
     buildKey := None;
     emitted := [];
     console := [] |}.

(** [return this._builder.initX(lastBegin, line)]: the call updates the
    builder and its result is the value of [_checkType]. *)
Definition return_init (init : B -> option Buffer -> Buffer -> B * K)
    (line : Buffer) (lastBegin : option Buffer) (p : WARCParser)
    : option K * WARCParser :=
  let (b, k) := init (_builder p) lastBegin line in
  (Some k, set_builder b p).

(** [_checkType(line, lastBegin)], with its result; [None] is the
    [undefined] of the path that ends without a [return]. *)
Definition _checkType (line : Buffer) (lastBegin : option Buffer) (p : WARCParser)
    : option K * WARCParser :=
  let p := set_checkRecType false p in
  let p := set_foundType false p in
  let p := set_foundType (equals (req warcFieldIdentifiers) line) p in
  if _foundType p then return_init initReq line lastBegin p
  else
    let p := set_foundType (equals (res warcFieldIdentifiers) line) p in
    if _foundType p then return_init initRes line lastBegin p
    else
      if _foundType p then return_init initRevist line lastBegin p
      else
        let p := set_foundType (equals (info warcFieldIdentifiers) line) p in
        if _foundType p then return_init initInfo line lastBegin p
        else
          let p := set_foundType (equals (mdata warcFieldIdentifiers) line) p in
          if _foundType p then return_init initMdata line lastBegin p
          else (None, console_log line p).

(** The ['data'] handler installed by [start].  [isEmptyLine] is assigned
    before it is read in every call, so it is a local here. *)
Definition on_data (line : Buffer) (p : WARCParser) : WARCParser :=
  if equals (begin warcFieldIdentifiers) line then
    let p :=
      if negb (_starting p)
      then emit (EvRecord (buildRecord (_builder p) (buildKey p))) p
      else set_starting false p in
    let p := set_crlfCounter 0 p in
    let p := set_checkRecType true p in
    set_lastBegin (Some line) p
  else
    let isEmptyLine := equals (empty warcFieldIdentifiers) line in
    if _checkRecType p && negb isEmptyLine then
      let (k, p) := _checkType line (lastBegin p) p in
      set_buildKey k p
    else if isEmptyLine then
      set_crlfCounter (_crlfCounter p + 1) p
    else
      set_builder (addLineTo (_builder p) (buildKey p) (_crlfCounter p) line) p.

(** The ['error'] handler. *)
Definition on_error (error : string) (p : WARCParser) : WARCParser :=
  emit (EvError error) p.

(** The ['end'] handler.  It only runs on a stream that [start] has stored
    in [_readStream]. *)
Definition on_end (p : WARCParser) : WARCParser :=
  let p := set_parsing false p in
  let p := emit (EvDone (buildRecord (_builder p) (buildKey p))) p in
  let p := set_readStream (option_map destroy (_readStream p)) p in
  set_builder (clear (_builder p)) p.

(** [start()]: how the call completes and the state it leaves. *)
Definition start (p : WARCParser) : Completion * WARCParser :=
  if negb (_parsing p) then
    match _wp p with
    | path_null | path_undefined =>
        (Throw "The path to the WARC file is undefined", p)
    | path_string wp =>
        let p := set_starting true p in
        let p := set_parsing true p in
        let p := set_lastBegin None p in
        let p := set_buildKey None p in
        let p := set_readStream (Some (createReadStream (untildify wp))) p in
        (Return js_undefined, p)
    end
  else (Return (js_bool false), p).

(** [parseWARC(wp)] *)
Definition parseWARC (wp : PathValue) (p : WARCParser) : Completion * WARCParser :=
  let p := if negb (_parsing p) then set_wp (js_or wp (_wp p)) p else p in
  start p.

(** One event of the transport, handled. *)
Definition deliver (p : WARCParser) (ev : StreamEvent) : WARCParser :=
  match ev with
  | Data line => on_data line p
  | StreamError e => on_error e p
  | End => on_end p
  end.

(** The ['data'] handler run on each line in turn. *)
Definition feed (p : WARCParser) (lines : list Buffer) : WARCParser :=
  fold_left (fun q line => on_data line q) lines p.

(** The events of a transport handled in turn. *)
Definition run (p : WARCParser) (evs : list StreamEvent) : WARCParser :=
  fold_left deliver evs p.

(** A whole session on a stream that delivers [lines] and then ends. *)
Definition session (p : WARCParser) (lines : list Buffer) : WARCParser :=
  on_end (feed (snd (start p)) lines).

(** ** Notions the statements below are phrased with *)

(** The record the builder would hand out now: [this._builder.buildRecord(buildKey)]. *)
Definition built (p : WARCParser) : RecordModel :=
  buildRecord (_builder p) (buildKey p).

(** None of the lines is equal to the begin sentinel. *)
Definition no_begin (lines : list Buffer) : bool :=
  forallb (fun x => negb (equals (begin warcFieldIdentifiers) x)) lines.

(** The lines of one record of a stream: a line equal to the begin sentinel,
    followed by lines none of which is equal to it. *)
Definition is_record (r : list Buffer) : bool :=
  match r with
  | [] => false
  | l :: body => equals (begin warcFieldIdentifiers) l && no_begin body
  end.

(** For a stream cut into records, the record built from the state the
    parser is in once it has taken the lines of each record, in order. *)
Fixpoint results (p : WARCParser) (recs : list (list Buffer)) : list RecordModel :=
  match recs with
  | [] => []
  | r :: rest => built (feed p r) :: results (feed p r) rest
  end.

(** The line matches none of the five type sentinels of the table. *)
Definition matches_no_type (line : Buffer) : bool :=
  negb (equals (req warcFieldIdentifiers) line)
  && negb (equals (res warcFieldIdentifiers) line)
  && negb (equals (revisit warcFieldIdentifiers) line)
  && negb (equals (info warcFieldIdentifiers) line)
  && negb (equals (mdata warcFieldIdentifiers) line).

(** The ['data'] handler passes this line to [_checkType]: the line is not
    the begin sentinel, [_checkRecType] is set and the line is not empty. *)
Definition type_checked (p : WARCParser) (line : Buffer) : bool :=
  negb (equals (begin warcFieldIdentifiers) line)
  && (_checkRecType p && negb (equals (empty warcFieldIdentifiers) line)).

(** How many of the lines are passed to [_checkType] when they are handled
    in turn from state [p]. *)
Fixpoint type_checks (p : WARCParser) (lines : list Buffer) : nat :=
  match lines with
  | [] => 0
  | l :: rest =>
      (if type_checked p l then 1 else 0) + type_checks (on_data l p) rest
  end.

(** The parser state without the source it reads from. *)
Definition erase_source (p : WARCParser) : WARCParser :=
  set_wp path_null (set_readStream None p).

(** The states a parser object is in between the runs of its handlers: it is
    constructed, its two entry points are called, and once a stream has been
    opened the transport delivers events to the handlers.  Calls that a
    listener makes in the middle of a handler are not among these steps;
    [reachable_with_listeners] below has them. *)
Inductive reachable : WARCParser -> Prop :=
| reach_new : forall wp, reachable (new_WARCParser wp)
| reach_start : forall p, reachable p -> reachable (snd (start p))
| reach_parseWARC : forall wp p, reachable p -> reachable (snd (parseWARC wp p))
| reach_deliver : forall p ev,
    reachable p -> _readStream p <> None -> reachable (deliver p ev).

End Parser.

Arguments WARCParser B K : clear implicits.

(** Modelled from the spec: what the builder does with a key that is
    [undefined] is decided in [warcRecordBuilder], which is not among the
    sources.  The spec asks that [addLineTo] is then a no-op and that
    [buildRecord] gives an empty record of type [Unknown]. *)
Class BuilderDegrades (B K : Type) {builder_ops : RecordBuilder B K} : Prop := {
  addLineTo_undefined : forall (b : B) (n : nat) (line : Buffer),
    addLineTo b None n line = b;
  buildRecord_undefined : forall b : B,
    buildRecord b None = unknown_record
}.

Arguments BuilderDegrades B K {builder_ops}.

(** ** A record builder after the spec *)

Module SpecBuilder.

(** Modelled from the spec: [WARCRecorderBuilder] itself
    ([src/lib/warcRecordBuilder]) is not among the sources.  After the spec a
    builder holds the record in progress: its type tag, its header lines and
    its payload lines.  The key an [init] operation returns is the type tag
    of the record it has begun. *)
Record BuilderState := {
  recordType : RecordType;
  headerLines : list Buffer;
  payloadBytes : list Buffer
}.

Definition RecordType_eqb (a b : RecordType) : bool :=
  match a, b with
  | Request, Request | Response, Response | Revisit, Revisit
  | Info, Info | Metadata, Metadata | Unknown, Unknown => true
  | _, _ => false
  end.

(** Modelled from the spec: the number of blank lines after which the lines
    of a record are payload; request, response and revisit records embed an
    HTTP message with a separator of its own, info and metadata records have
    a single separator. *)
Definition threshold (t : RecordType) : nat :=
  match t with
  | Request | Response | Revisit => 2
  | Info | Metadata => 1
  | Unknown => 0
  end.

(** Modelled from the spec: a builder with nothing in progress. *)
Definition fresh : BuilderState :=
  {| recordType := Unknown; headerLines := []; payloadBytes := [] |}.

(** Modelled from the spec: [initReq] and its siblings begin a record of the
    given type whose first header entries are the begin line and the type
    line, and return its key. *)
Definition init (t : RecordType) (b : BuilderState)
    (beginLine : option Buffer) (typeLine : Buffer) : BuilderState * RecordType :=
  ({| recordType := t;
      headerLines := match beginLine with
                     | Some l => [l; typeLine]
                     | None => [typeLine]
                     end;
      payloadBytes := [] |}, t).

(** The key names the record in progress. *)
Definition live (b : BuilderState) (key : option RecordType) : bool :=
  match key with
  | Some k => RecordType_eqb k (recordType b) && negb (RecordType_eqb k Unknown)
  | None => false
  end.

(** Modelled from the spec: [addLineTo] appends the line to the header lines
    while the blank-line count is below the threshold of the record's type
    and to the payload afterwards; for a key that names no record in
    progress it does nothing. *)
Definition add_line (b : BuilderState) (key : option RecordType)
    (blankLineCount : nat) (line : Buffer) : BuilderState :=
  if live b key then
    if blankLineCount <? threshold (recordType b) then
      {| recordType := recordType b;
         headerLines := headerLines b ++ [line];
         payloadBytes := payloadBytes b |}
    else
      {| recordType := recordType b;
         headerLines := headerLines b;
         payloadBytes := payloadBytes b ++ [line] |}
  else b.

Definition is_colon (c : byte) : bool := Byte.eqb c x3a.

(** Space, tab, line feed, vertical tab, form feed and carriage return. *)
Definition is_space (c : byte) : bool :=
  Byte.eqb c x20 || Byte.eqb c x09 || Byte.eqb c x0a
  || Byte.eqb c x0b || Byte.eqb c x0c || Byte.eqb c x0d.

Fixpoint drop_space (l : Buffer) : Buffer :=
  match l with
  | c :: l' => if is_space c then drop_space l' else l
  | [] => []
  end.

Definition trim (l : Buffer) : Buffer :=
  rev (drop_space (rev (drop_space l))).

(** The line cut at its first colon, if it has one. *)
Fixpoint split_colon (l : Buffer) : option (Buffer * Buffer) :=
  match l with
  | [] => None
  | c :: l' =>
      if is_colon c then Some ([], l')
      else match split_colon l' with
           | Some (name, value) => Some (c :: name, value)
           | None => None
           end
  end.

(** A field set in a mapping that keeps insertion order: a name already
    present keeps its place and takes the new value. *)
Fixpoint set_field (name value : Buffer) (m : list (Buffer * Buffer))
    : list (Buffer * Buffer) :=
  match m with
  | [] => [(name, value)]
  | (n, v) :: m' =>
      if equals n name then (n, value) :: m'
      else (n, v) :: set_field name value m'
  end.

(** Modelled from the spec: header lines become name and value by a split at
    the first colon, both trimmed; a line without a colon is skipped. *)
Definition parse_headers (lines : list Buffer) : list (Buffer * Buffer) :=
  fold_left
    (fun m line =>
       match split_colon line with
       | Some (name, value) => set_field (trim name) (trim value) m
       | None => m
       end)
    lines [].

(** Modelled from the spec: [buildRecord] gives the record in progress and
    leaves the builder as it is; for a key that names no record in progress
    it gives an empty record of type [Unknown]. *)
Definition build (b : BuilderState) (key : option RecordType) : RecordModel :=
  if live b key then
    {| type := recordType b;
       headers := parse_headers (headerLines b);
       payload := payloadBytes b |}
  else unknown_record.

#[global] Instance ops : RecordBuilder BuilderState RecordType := {
  newBuilder := fresh;
  initReq := init Request;
  initRes := init Response;
  initRevist := init Revisit;
  initInfo := init Info;
  initMdata := init Metadata;
  addLineTo := add_line;
  buildRecord := build;
  clear := fun _ => fresh
}.

(** Modelled from the spec: the sentinel table of [./fieldIdentifiers], which
    is not among the sources; the lines of a WARC file as the transport
    delivers them, without their terminator. *)
Definition fieldIdentifiers : FieldIdentifiers :=
  {| begin := buf "WARC/1.0";
     empty := buf "";
     req := buf "WARC-Type: request";
     res := buf "WARC-Type: response";
     revisit := buf "WARC-Type: revisit";
     info := buf "WARC-Type: warcinfo";
     mdata := buf "WARC-Type: metadata" |}.

(** [untildify] on a path without a leading tilde. *)
Definition plain_path (path : string) : string := path.

(** A parser on the file [a.warc] whose session has been opened. *)
Definition opened : WARCParser BuilderState RecordType :=
  snd (start plain_path (new_WARCParser (path_string "a.warc"))).

(** The lines of a warcinfo record and of a metadata record, each with one
    header field and no payload, and a line that is no type line. *)
Definition info_record : list Buffer :=
  [buf "WARC/1.0"; buf "WARC-Type: warcinfo"; buf "WARC-Filename: a.warc"; buf ""; buf ""].

Definition mdata_record : list Buffer :=
  [buf "WARC/1.0"; buf "WARC-Type: metadata"; buf "WARC-Date: 2016-01-01"; buf ""; buf ""].

Definition garbage : Buffer := buf "garbage".

(** The session once it has taken the first begin line, the whole warcinfo
    record, and the begin line after the warcinfo record. *)
Definition awaiting_type : WARCParser BuilderState RecordType :=
  on_data fieldIdentifiers (buf "WARC/1.0") opened.

Definition after_info : WARCParser BuilderState RecordType :=
  feed fieldIdentifiers opened info_record.

Definition awaiting_second_type : WARCParser BuilderState RecordType :=
  on_data fieldIdentifiers (buf "WARC/1.0") after_info.

End SpecBuilder.

(** ** Further notions on streams and notifications *)

Section StreamNotions.

Context {B K : Type} {builder_ops : RecordBuilder B K}.
Variable warcFieldIdentifiers : FieldIdentifiers.

(** How many of the lines are equal to the begin sentinel, and how many to
    the empty sentinel. *)
Definition count_begin (lines : list Buffer) : nat :=
  length (filter (equals (begin warcFieldIdentifiers)) lines).

Definition count_empty (lines : list Buffer) : nat :=
  length (filter (equals (empty warcFieldIdentifiers)) lines).

(** The lines that are not empty, each with the number of empty lines
    before it added to [n]. *)
Fixpoint forwarded (n : nat) (lines : list Buffer) : list (nat * Buffer) :=
  match lines with
  | [] => []
  | l :: rest =>
      if equals (empty warcFieldIdentifiers) l then forwarded (n + 1) rest
      else (n, l) :: forwarded n rest
  end.

(** [addLineTo] called under one key for each pair of a count and a line. *)
Definition add_all (b : B) (key : option K) (content : list (nat * Buffer)) : B :=
  fold_left (fun acc nl => addLineTo acc key (fst nl) (snd nl)) content b.

Definition is_error (e : Event) : bool :=
  match e with
  | EvError _ => true
  | _ => false
  end.

(** The errors among notifications, and among the events of a transport. *)
Fixpoint errors_in (evs : list Event) : list string :=
  match evs with
  | [] => []
  | EvError e :: rest => e :: errors_in rest
  | _ :: rest => errors_in rest
  end.

Fixpoint errors_of (evs : list StreamEvent) : list string :=
  match evs with
  | [] => []
  | StreamError e :: rest => e :: errors_of rest
  | _ :: rest => errors_of rest
  end.

(** The events of a transport without its errors. *)
Definition data_only (evs : list StreamEvent) : list StreamEvent :=
  filter (fun ev => match ev with StreamError _ => false | _ => true end) evs.

(** The parser state with the error notifications taken out of [emitted]. *)
Definition drop_errors (p : WARCParser B K) : WARCParser B K :=
  mkParser (_wp p) (_readStream p) (_checkRecType p) (_foundType p) (_starting p)
    (_parsing p) (_crlfCounter p) (_builder p) (lastBegin p) (buildKey p)
    (filter (fun e => negb (is_error e)) (emitted p)) (console p).

(** The parser holds a stream that has not been destroyed. *)
Definition stream_open (p : WARCParser B K) : bool :=
  match _readStream p with
  | Some s => negb (destroyed s)
  | None => false
  end.

End StreamNotions.

(** ** Sessions on a parser that has been used, and listeners that call back *)

Section Listeners.

Context {B K : Type} {builder_ops : RecordBuilder B K}.
Variable warcFieldIdentifiers : FieldIdentifiers.
Variable untildify : string -> string.

(** The first line of the stream is the begin sentinel. *)
Definition starts_with_begin (lines : list Buffer) : bool :=
  match lines with
  | [] => false
  | l :: _ => equals (begin warcFieldIdentifiers) l
  end.

(** What the handlers of a session go by: the parser state without its
    source, without [_foundType], which [_checkType] assigns before it reads
    it, and without what was emitted and logged before. *)
Definition session_view (p : WARCParser B K) : WARCParser B K :=
  mkParser path_null None (_checkRecType p) false (_starting p) (_parsing p)
    (_crlfCounter p) (_builder p) (lastBegin p) (buildKey p) [] [].

(** A call of an entry point by a listener. *)
Inductive Call :=
| call_start
| call_parseWARC (wp : PathValue).

Definition call (c : Call) (p : WARCParser B K) : Completion * WARCParser B K :=
  match c with
  | call_start => start untildify p
  | call_parseWARC wp => parseWARC untildify wp p
  end.

(** The calls a listener makes, in turn; a call that throws ends the
    listener, and the flag says so. *)
Fixpoint listener_calls (calls : list Call) (p : WARCParser B K)
    : bool * WARCParser B K :=
  match calls with
  | [] => (false, p)
  | c :: rest =>
      match call c p with
      | (Throw _, q) => (true, q)
      | (Return _, q) => listener_calls rest q
      end
  end.

(** The ['end'] handler with a ['done'] listener that makes these calls.
    [emit] runs the listener before it returns, that is between the second
    and the third statement of the handler; an exception of the listener
    leaves the handler there. *)
Definition on_end_with (calls : list Call) (p : WARCParser B K) : WARCParser B K :=
  let p := set_parsing false p in
  let p := emit (EvDone (buildRecord (_builder p) (buildKey p))) p in
  let (thrown, p) := listener_calls calls p in
  if thrown then p
  else
    let p := set_readStream (option_map destroy (_readStream p)) p in
    set_builder (clear (_builder p)) p.

(** What holds of the state in the middle of the ['end'] handler, whatever
    a listener has called so far. *)
Definition mid_end (p : WARCParser B K) : Prop :=
  exists w, _wp p = path_string w
            /\ _readStream p <> None
            /\ (_parsing p = true ->
                _readStream p = Some (createReadStream (untildify w))).

(** The states of [reachable], and those a ['done'] listener brings about by
    calling the entry points.  Listeners of ['record'] run while the parser
    is parsing, where the entry points change nothing, and a listener of
    ['error'] runs when its handler has nothing left to do. *)
Inductive reachable_with_listeners : WARCParser B K -> Prop :=
| rl_new : forall wp, reachable_with_listeners (new_WARCParser wp)
| rl_start : forall p,
    reachable_with_listeners p -> reachable_with_listeners (snd (start untildify p))
| rl_parseWARC : forall wp p,
    reachable_with_listeners p ->
    reachable_with_listeners (snd (parseWARC untildify wp p))
| rl_deliver : forall p ev,
    reachable_with_listeners p -> _readStream p <> None ->
    reachable_with_listeners (deliver warcFieldIdentifiers p ev)
| rl_end_listener : forall p calls,
    reachable_with_listeners p -> _readStream p <> None ->
    reachable_with_listeners (on_end_with calls p).

End Listeners.

(** A stream with a type line before its begin line, and two sessions on it
    with one parser, the second after the first has ended. *)
Module Reuse.

Definition stray_lines : list Buffer :=
  [buf "WARC-Type: request"; buf "WARC/1.0"; buf ""].

Definition first_session : WARCParser SpecBuilder.BuilderState RecordType :=
  session SpecBuilder.fieldIdentifiers SpecBuilder.plain_path
    (new_WARCParser (path_string "a.warc")) stray_lines.

Definition second_session : WARCParser SpecBuilder.BuilderState RecordType :=
  session SpecBuilder.fieldIdentifiers SpecBuilder.plain_path first_session stray_lines.

End Reuse.

(** * Properties *)

(** ** Buffer equality *)

Lemma byte_eqb_refl (x : byte) : Byte.eqb x x = true.
Proof. apply Byte.byte_dec_lb. reflexivity. Qed.

Lemma equals_refl (a : Buffer) : equals a a = true.
Proof.
  induction a as [|x a IH]; simpl; [reflexivity|].
  now rewrite byte_eqb_refl, IH.
Qed.

Lemma equals_eq (a b : Buffer) : equals a b = true <-> a = b.
Proof.
  split; [|intros ->; apply equals_refl].
  revert b; induction a as [|x a IH]; intros [|y b]; simpl; try discriminate; auto.
  intros H. apply andb_true_iff in H as [Hx Hab].
  apply Byte.byte_dec_bl in Hx. f_equal; auto.
Qed.

Section ParserProperties.

Context {B K : Type} {builder_ops : RecordBuilder B K}.
Variable ids : FieldIdentifiers.
Variable untildify : string -> string.

(** ** Type classification *)

(** What [_checkType] computes, branch by branch: the revisit entry of the
    table is never consulted. *)
Lemma _checkType_cases (line : Buffer) (lb : option Buffer) (p : WARCParser B K) :
  _checkType ids line lb p =
    let q f := set_foundType f (set_checkRecType false p) in
    if equals (req ids) line then return_init initReq line lb (q true)
    else if equals (res ids) line then return_init initRes line lb (q true)
    else if equals (info ids) line then return_init initInfo line lb (q true)
    else if equals (mdata ids) line then return_init initMdata line lb (q true)
    else (None, console_log line (q false)).
Proof.
  unfold _checkType; simpl.
  destruct (equals (req ids) line); [reflexivity|]; simpl.
  destruct (equals (res ids) line); [reflexivity|]; simpl.
  destruct (equals (info ids) line); [reflexivity|]; simpl.
  destruct (equals (mdata ids) line); reflexivity.
Qed.

(** What [_checkType] leaves alone: everything but the two flags, the
    builder and the console; the type check flag is cleared whatever the
    line is. *)
Lemma _checkType_frame (line : Buffer) (lb : option Buffer) (p : WARCParser B K) :
  let q := snd (_checkType ids line lb p) in
  _wp q = _wp p /\ _readStream q = _readStream p /\ _starting q = _starting p
  /\ _parsing q = _parsing p /\ _crlfCounter q = _crlfCounter p
  /\ lastBegin q = lastBegin p /\ buildKey q = buildKey p
  /\ emitted q = emitted p /\ _checkRecType q = false.
Proof.
  rewrite _checkType_cases. unfold return_init. simpl.
  repeat match goal with
         | |- context [if ?c then _ else _] => destruct c
         | |- context [let (_, _) := ?x in _] => destruct x
         end; simpl; repeat split.
Qed.

(** What the ['data'] handler leaves alone on a line that is not the begin
    sentinel. *)
Lemma on_data_frame (line : Buffer) (p : WARCParser B K) :
  equals (begin ids) line = false ->
  let q := on_data ids line p in
  _wp q = _wp p /\ _readStream q = _readStream p /\ _starting q = _starting p
  /\ _parsing q = _parsing p /\ lastBegin q = lastBegin p /\ emitted q = emitted p.
Proof.
  intros Hb. unfold on_data. rewrite Hb.
  destruct (_checkRecType p && negb (equals (empty ids) line)).
  - pose proof (_checkType_frame line (lastBegin p) p) as F.
    destruct (_checkType ids line (lastBegin p) p) as [k q]. simpl in *. tauto.
  - destruct (equals (empty ids) line); simpl; repeat split.
Qed.

(** The source and the parsing flag are not touched by the ['data'] handler. *)
Lemma on_data_source (line : Buffer) (p : WARCParser B K) :
  let q := on_data ids line p in
  _wp q = _wp p /\ _readStream q = _readStream p /\ _parsing q = _parsing p.
Proof.
  destruct (equals (begin ids) line) eqn:Hb.
  - unfold on_data. rewrite Hb. destruct (_starting p); simpl; repeat split.
  - pose proof (on_data_frame line p Hb). simpl in *. tauto.
Qed.

(** C1: a line equal to the revisit sentinel, handed to [_checkType], is not
    initialised as a revisit record.  When the revisit sentinel differs from
    the request, response, info and metadata sentinels, [_checkType] leaves
    the builder untouched, logs the line as an unknown type and returns
    [undefined]; the ['data'] handler that awaits a type line then sets the
    key variable to [undefined]. *)
Theorem _checkType_revisit_line (lb : option Buffer) (p : WARCParser B K) :
  equals (req ids) (revisit ids) = false ->
  equals (res ids) (revisit ids) = false ->
  equals (info ids) (revisit ids) = false ->
  equals (mdata ids) (revisit ids) = false ->
  _checkType ids (revisit ids) lb p =
    (None, console_log (revisit ids) (set_foundType false (set_checkRecType false p)))
  /\ _builder (snd (_checkType ids (revisit ids) lb p)) = _builder p
  /\ _checkType ids (revisit ids) lb p <>
       return_init initRevist (revisit ids) lb
         (set_foundType true (set_checkRecType false p))
  /\ (type_checked ids p (revisit ids) = true ->
      on_data ids (revisit ids) p =
        set_buildKey None
          (console_log (revisit ids) (set_foundType false (set_checkRecType false p)))).
Proof.
  intros Hreq Hres Hinfo Hmdata.
  assert (E : forall lb',
            _checkType ids (revisit ids) lb' p =
              (None, console_log (revisit ids)
                       (set_foundType false (set_checkRecType false p)))).
  { intros lb'. rewrite _checkType_cases; simpl.
    now rewrite Hreq, Hres, Hinfo, Hmdata. }
  rewrite E. repeat split.
  - unfold return_init. destruct (initRevist _ _ _). discriminate.
  - unfold type_checked, on_data. intros T.
    apply andb_true_iff in T as [Hb Hc]. apply negb_true_iff in Hb.
    now rewrite Hb, Hc, E.
Qed.

(** ** The begin sentinel *)

(** C6: a line equal to the begin sentinel.  On the first one of a session
    nothing is emitted; on a later one the record in progress is built with
    [buildRecord] and emitted as a ['record'] notification, and nothing else
    is.  Either way the blank-line counter is 0 afterwards, the type check
    flag is set, and the next line that is neither the begin sentinel nor
    empty is handed to [_checkType] together with this begin line. *)
Theorem on_data_begin (line : Buffer) (p : WARCParser B K) :
  equals (begin ids) line = true ->
  let q := on_data ids line p in
  emitted q =
    (if _starting p then emitted p
     else emitted p ++ [EvRecord (buildRecord (_builder p) (buildKey p))])
  /\ _starting q = false
  /\ _crlfCounter q = 0
  /\ _checkRecType q = true
  /\ _builder q = _builder p
  /\ forall next : Buffer,
       equals (begin ids) next = false ->
       equals (empty ids) next = false ->
       on_data ids next q =
         set_buildKey (fst (_checkType ids next (Some line) q))
                      (snd (_checkType ids next (Some line) q)).
Proof.
  intros Hb q. subst q. unfold on_data at 1 2 3 4 5. rewrite Hb.
  destruct (_starting p) eqn:Hs; simpl; rewrite ?Hs; repeat split; auto;
    intros next Hn He; unfold on_data; rewrite Hb, Hn, He; simpl; rewrite ?Hs; simpl;
    match goal with |- context [_checkType ?i ?l ?b ?s] =>
      destruct (_checkType i l b s) end; reflexivity.
Qed.

(** ** The entry points *)

(** C8: while a session is in progress, [start] and [parseWARC] return
    [false] and leave the whole state of the parser as it is. *)
Theorem start_while_parsing (wp : PathValue) (p : WARCParser B K) :
  _parsing p = true ->
  start untildify p = (Return (js_bool false), p)
  /\ parseWARC untildify wp p = (Return (js_bool false), p).
Proof.
  intros Hp. unfold parseWARC, start. rewrite Hp. simpl. rewrite Hp. simpl.
  split; reflexivity.
Qed.

(** C5: when no session is in progress and a path is configured, [start]
    opens a session and returns [undefined], not [true]; so does
    [parseWARC] when it is given a non-empty path. *)
Theorem start_returns_undefined (w : string) (p : WARCParser B K) :
  _parsing p = false ->
  (_wp p = path_string w ->
   fst (start untildify p) = Return js_undefined
   /\ _parsing (snd (start untildify p)) = true
   /\ _readStream (snd (start untildify p)) = Some (createReadStream (untildify w)))
  /\ (truthy (path_string w) = true ->
      fst (parseWARC untildify (path_string w) p) = Return js_undefined
      /\ _parsing (snd (parseWARC untildify (path_string w) p)) = true
      /\ _readStream (snd (parseWARC untildify (path_string w) p))
           = Some (createReadStream (untildify w))).
Proof.
  intros Hp. split.
  - intros Hw. unfold start. rewrite Hp, Hw. simpl. auto.
  - intros Ht. unfold parseWARC, start, js_or. rewrite Hp, Ht. simpl.
    rewrite Hp. simpl. auto.
Qed.

(** A parser that is parsing has a path. *)
Lemma reachable_parsing_has_path (p : WARCParser B K) :
  reachable ids untildify p ->
  _parsing p = true -> exists w, _wp p = path_string w.
Proof.
  induction 1 as [wp | p Hr IH | wp p Hr IH | p ev Hr IH Hs]; intros Hp.
  - discriminate.
  - unfold start in *. destruct (_parsing p) eqn:E; simpl in *; [auto|].
    destruct (_wp p) eqn:W; simpl in *; try congruence. eauto.
  - unfold parseWARC, start in *. destruct (_parsing p) eqn:E; simpl in *.
    + rewrite E in *. simpl in *. auto.
    + rewrite E in *. simpl in *.
      destruct (js_or wp (_wp p)) eqn:W; simpl in *; try congruence. eauto.
  - destruct ev as [line | e |]; simpl in *.
    + pose proof (on_data_source line p) as F. simpl in F.
      destruct F as (Fw & _ & Fp). rewrite Fw. apply IH. congruence.
    + auto.
    + discriminate.
Qed.

(** C7: on a parser with no path configured ([_wp] is [null] or
    [undefined]), [start] throws, and so does [parseWARC] when the path it is
    given is [null], [undefined] or empty; the call leaves the state of the
    parser as it was: no stream is opened, no handler has run. *)
Theorem start_without_path (wp : PathValue) (p : WARCParser B K) :
  reachable ids untildify p ->
  _wp p = path_null \/ _wp p = path_undefined ->
  start untildify p = (Throw "The path to the WARC file is undefined", p)
  /\ (truthy wp = false ->
      parseWARC untildify wp p = (Throw "The path to the WARC file is undefined", p)).
Proof.
  intros Hr Hw.
  assert (Hp : _parsing p = false).
  { destruct (_parsing p) eqn:E; [|reflexivity].
    destruct (reachable_parsing_has_path Hr E) as [w Hw']. destruct Hw; congruence. }
  split.
  - unfold start. rewrite Hp. simpl. destruct Hw as [-> | ->]; reflexivity.
  - intros Ht. unfold parseWARC, start, js_or. rewrite Hp, Ht. simpl. rewrite Hp. simpl.
    destruct p; simpl in *. destruct Hw as [-> | ->]; reflexivity.
Qed.

(** ** Transport errors *)

(** C4: a session is opened on a fresh parser and the transport reports an
    error.  The error is emitted once, but the parser stays in the parsing
    state with its stream not destroyed, and a later [start] is refused;
    the end of the stream, by contrast, leaves the parsing state and
    destroys the stream. *)
Theorem on_error_keeps_session (w e : string) :
  let opened := snd (start untildify (new_WARCParser (path_string w))) in
  let p : WARCParser B K := on_error e opened in
  emitted p = [EvError e]
  /\ _parsing p = true
  /\ _readStream p = Some (createReadStream (untildify w))
  /\ _builder p = _builder opened
  /\ start untildify p = (Return (js_bool false), p)
  /\ _parsing (on_end opened) = false
  /\ _readStream (on_end opened) = Some (destroy (createReadStream (untildify w))).
Proof.
  simpl. repeat split.
Qed.

(** ** One notification per record *)

Lemma feed_app (p : WARCParser B K) (l1 l2 : list Buffer) :
  feed ids p (l1 ++ l2) = feed ids (feed ids p l1) l2.
Proof. unfold feed. apply fold_left_app. Qed.

(** Lines without a begin sentinel emit nothing. *)
Lemma feed_no_begin (body : list Buffer) (p : WARCParser B K) :
  no_begin ids body = true ->
  emitted (feed ids p body) = emitted p
  /\ _starting (feed ids p body) = _starting p
  /\ lastBegin (feed ids p body) = lastBegin p.
Proof.
  revert p. induction body as [|l body IH]; intros p H; simpl in *; [auto|].
  apply andb_true_iff in H as [Hl Hbody]. apply negb_true_iff in Hl.
  destruct (IH (on_data ids l p) Hbody) as (E & S & L).
  destruct (on_data_frame l p Hl) as (_ & _ & S' & _ & L' & E').
  rewrite E, S, L. auto.
Qed.

(** The ['end'] handler emits the record in progress as ['done']. *)
Lemma on_end_emitted (p : WARCParser B K) :
  emitted (on_end p) = emitted p ++ [EvDone (built p)].
Proof. reflexivity. Qed.

(** The lines of one record: the begin line closes the record before it,
    unless there is none. *)
Lemma feed_record (r : list Buffer) (p : WARCParser B K) :
  is_record ids r = true ->
  emitted (feed ids p r) =
    (if _starting p then emitted p else emitted p ++ [EvRecord (built p)])
  /\ _starting (feed ids p r) = false.
Proof.
  destruct r as [|l body]; simpl; [discriminate|].
  intros H. apply andb_true_iff in H as [Hl Hbody].
  destruct (feed_no_begin body (on_data ids l p) Hbody) as (E & S & _).
  destruct (on_data_begin l p Hl) as (E' & S' & _).
  fold (feed ids (on_data ids l p) body). rewrite E, S. auto.
Qed.

Lemma results_length (recs : list (list Buffer)) (p : WARCParser B K) :
  length (results ids p recs) = length recs.
Proof.
  revert p. induction recs as [|r recs IH]; intros p; simpl; [reflexivity|].
  now rewrite IH.
Qed.

(** The last of the results is the record in progress at the end. *)
Lemma results_last (recs : list (list Buffer)) (p : WARCParser B K) (d : RecordModel) :
  recs <> [] ->
  last (results ids p recs) d = built (feed ids p (concat recs)).
Proof.
  revert p. induction recs as [|r recs IH]; intros p Hne; [congruence|].
  destruct recs as [|r' recs].
  - simpl. now rewrite app_nil_r.
  - change (concat (r :: r' :: recs)) with (r ++ concat (r' :: recs)).
    rewrite feed_app, <- IH by discriminate. reflexivity.
Qed.

(** Once the first begin line is behind, every record closes the one
    before it. *)
Lemma feed_later_records (recs : list (list Buffer)) (p : WARCParser B K) :
  _starting p = false ->
  forallb (is_record ids) recs = true ->
  emitted (feed ids p (concat recs)) =
    emitted p ++ map EvRecord
      (match recs with
       | [] => []
       | _ => built p :: removelast (results ids p recs)
       end).
Proof.
  revert p. induction recs as [|r recs IH]; intros p Hs H.
  - simpl. now rewrite app_nil_r.
  - simpl in H. apply andb_true_iff in H as [Hr Hrecs].
    change (concat (r :: recs)) with (r ++ concat recs). rewrite feed_app.
    destruct (feed_record r p Hr) as (E & S). rewrite Hs in E.
    rewrite (IH (feed ids p r) S Hrecs), E, <- app_assoc.
    f_equal. destruct recs as [|r' recs]; reflexivity.
Qed.

(** C2: a stream made of N records, N at least 1, handled by a session from
    its start to the end of the stream.  With the records the builder hands
    out after each record of the stream, in order, the session emits the
    first N-1 of them as ['record'] notifications and then the last one as
    the ['done'] notification, and nothing else. *)
Theorem session_notifications (w : string) (recs : list (list Buffer)) (p : WARCParser B K) :
  _parsing p = false ->
  _wp p = path_string w ->
  recs <> [] ->
  forallb (is_record ids) recs = true ->
  exists (rs : list RecordModel) (r : RecordModel),
    results ids (snd (start untildify p)) recs = rs ++ [r]
    /\ length rs = length recs - 1
    /\ emitted (session ids untildify p (concat recs)) =
         emitted p ++ map EvRecord rs ++ [EvDone r].
Proof.
  intros Hp Hw Hne H.
  set (p0 := snd (start untildify p)).
  assert (Hs0 : _starting p0 = true /\ emitted p0 = emitted p).
  { unfold p0, start. rewrite Hp, Hw. simpl. auto. }
  destruct Hs0 as [Hs0 He0].
  assert (Hres : results ids p0 recs <> []).
  { intros E. apply (f_equal (@length _)) in E. rewrite results_length in E.
    destruct recs; [congruence | discriminate]. }
  exists (removelast (results ids p0 recs)), (last (results ids p0 recs) unknown_record).
  split; [apply app_removelast_last; assumption|].
  split.
  { assert (L := results_length recs p0).
    rewrite (app_removelast_last unknown_record Hres), length_app in L.
    simpl in L. lia. }
  unfold session. fold p0. rewrite on_end_emitted, <- (results_last p0 unknown_record Hne).
  rewrite app_assoc. f_equal.
  destruct recs as [|r1 rest]; [congruence|].
  simpl in H. apply andb_true_iff in H as [Hr1 Hrest].
  change (concat (r1 :: rest)) with (r1 ++ concat rest). rewrite feed_app.
  destruct (feed_record r1 p0 Hr1) as (E & S). rewrite Hs0 in E.
  rewrite (feed_later_records rest (feed ids p0 r1) S Hrest), E, He0.
  f_equal. destruct rest as [|r2 rest]; reflexivity.
Qed.

(** ** Lines that are not the begin sentinel *)

(** The type check flag after a line that is not the begin sentinel: it
    survives empty lines only. *)
Lemma on_data_flag (line : Buffer) (p : WARCParser B K) :
  equals (begin ids) line = false ->
  _checkRecType (on_data ids line p) = _checkRecType p && equals (empty ids) line.
Proof.
  intros Hb. unfold on_data. rewrite Hb.
  destruct (_checkRecType p) eqn:Hc, (equals (empty ids) line) eqn:He; simpl; auto.
  pose proof (_checkType_frame line (lastBegin p) p) as F.
  destruct (_checkType ids line (lastBegin p) p) as [k q]. simpl in *. tauto.
Qed.

(** A line handed to [_checkType]: the key variable takes what [_checkType]
    returns. *)
Lemma on_data_type_checked (line : Buffer) (p : WARCParser B K) :
  type_checked ids p line = true ->
  on_data ids line p =
    set_buildKey (fst (_checkType ids line (lastBegin p) p))
                 (snd (_checkType ids line (lastBegin p) p)).
Proof.
  unfold type_checked, on_data. intros H.
  apply andb_true_iff in H as [Hb Hc]. apply negb_true_iff in Hb.
  rewrite Hb, Hc. destruct (_checkType ids line (lastBegin p) p). reflexivity.
Qed.

(** A line not handed to [_checkType] and not a sentinel goes to
    [addLineTo] under the current key and blank-line count. *)
Lemma on_data_content (line : Buffer) (p : WARCParser B K) :
  _checkRecType p = false ->
  equals (begin ids) line = false ->
  equals (empty ids) line = false ->
  on_data ids line p =
    set_builder (addLineTo (_builder p) (buildKey p) (_crlfCounter p) line) p.
Proof.
  intros Hc Hb He. unfold on_data. rewrite Hb, Hc, He. reflexivity.
Qed.

(** A line that matches none of the type sentinels, handed to [_checkType]. *)
Lemma _checkType_no_match (line : Buffer) (lb : option Buffer) (p : WARCParser B K) :
  matches_no_type ids line = true ->
  _checkType ids line lb p =
    (None, console_log line (set_foundType false (set_checkRecType false p))).
Proof.
  unfold matches_no_type. intros H.
  repeat (apply andb_true_iff in H as [H ?]).
  repeat match goal with H : negb _ = true |- _ => apply negb_true_iff in H end.
  rewrite _checkType_cases. simpl.
  repeat match goal with H : equals _ line = false |- _ => rewrite H; clear H end.
  reflexivity.
Qed.

(** After a line that is not the begin sentinel, no further line is handed
    to [_checkType] once the flag is clear. *)
Lemma type_checks_clear (body : list Buffer) (p : WARCParser B K) :
  _checkRecType p = false ->
  no_begin ids body = true ->
  type_checks ids p body = 0.
Proof.
  revert p. induction body as [|l body IH]; intros p Hc H; simpl in *; [reflexivity|].
  apply andb_true_iff in H as [Hl Hbody]. apply negb_true_iff in Hl.
  unfold type_checked. rewrite Hc, andb_false_r. simpl.
  apply IH; [|assumption]. rewrite on_data_flag, Hc by assumption. reflexivity.
Qed.

(** The state between the lines of a record whose key is [undefined]. *)
Lemma feed_untyped (body : list Buffer) (p : WARCParser B K) :
  _checkRecType p = false ->
  buildKey p = None ->
  no_begin ids body = true ->
  _checkRecType (feed ids p body) = false
  /\ buildKey (feed ids p body) = None
  /\ console (feed ids p body) = console p
  /\ (BuilderDegrades B K -> _builder (feed ids p body) = _builder p).
Proof.
  revert p. induction body as [|l body IH]; intros p Hc Hk H; simpl in *; [auto|].
  apply andb_true_iff in H as [Hl Hbody]. apply negb_true_iff in Hl.
  assert (Hq : _checkRecType (on_data ids l p) = false
               /\ buildKey (on_data ids l p) = None
               /\ console (on_data ids l p) = console p
               /\ (BuilderDegrades B K -> _builder (on_data ids l p) = _builder p)).
  { unfold on_data. rewrite Hl, Hc. simpl.
    destruct (equals (empty ids) l); simpl; repeat split; auto.
    intros D. rewrite Hk. apply addLineTo_undefined. }
  destruct Hq as (Hc' & Hk' & Hl' & Hb').
  destruct (IH (on_data ids l p) Hc' Hk' Hbody) as (C & Ky & L & Bd).
  fold (feed ids (on_data ids l p) body).
  rewrite C, Ky, L. repeat split; auto.
  intros D. rewrite (Bd D). auto.
Qed.

(** Blank lines while the type line is awaited only move the counter. *)
Lemma feed_blanks (blanks : list Buffer) (p : WARCParser B K) :
  forallb (fun x => negb (equals (begin ids) x) && equals (empty ids) x) blanks = true ->
  let q := feed ids p blanks in
  _checkRecType q = _checkRecType p /\ buildKey q = buildKey p
  /\ console q = console p /\ _builder q = _builder p /\ emitted q = emitted p
  /\ _crlfCounter q = _crlfCounter p + length blanks.
Proof.
  revert p. induction blanks as [|l blanks IH]; intros p H; simpl in *.
  - repeat split; auto.
  - apply andb_true_iff in H as [Hl Hblanks]. apply andb_true_iff in Hl as [Hb He].
    apply negb_true_iff in Hb.
    assert (E : on_data ids l p = set_crlfCounter (_crlfCounter p + 1) p).
    { unfold on_data. rewrite Hb, He, andb_false_r. reflexivity. }
    fold (feed ids (on_data ids l p) blanks).
    destruct (IH (on_data ids l p) Hblanks) as (C & Ky & L & Bd & Em & Ct).
    rewrite C, Ky, L, Bd, Em, Ct, E. simpl. repeat split; auto. lia.
Qed.

(** ** A type line that matches no sentinel *)

(** C3: after a begin line and any number of blank lines comes a line that
    is neither the begin sentinel nor empty and matches none of the five
    type sentinels; lines without a begin sentinel follow.  With a builder
    that degrades on an [undefined] key as the spec asks, the session emits
    nothing while these lines are handled, in particular no error; the line
    is written to the console and nothing else is; the builder is not
    touched; and the record is emitted empty, with type [Unknown], as a
    ['record'] notification at the next begin line, after which a type line
    is awaited again, or as the ['done'] notification if the stream ends. *)
Theorem untyped_record_degrades
    (b b' l : Buffer) (blanks body : list Buffer) (p : WARCParser B K) :
  BuilderDegrades B K ->
  equals (begin ids) b = true ->
  equals (begin ids) b' = true ->
  forallb (fun x => negb (equals (begin ids) x) && equals (empty ids) x) blanks = true ->
  equals (begin ids) l = false ->
  equals (empty ids) l = false ->
  matches_no_type ids l = true ->
  no_begin ids body = true ->
  let p1 := on_data ids b p in
  let q := feed ids p1 (blanks ++ l :: body) in
  emitted q = emitted p1
  /\ console q = console p1 ++ [l]
  /\ _builder q = _builder p1
  /\ built q = unknown_record
  /\ emitted (on_data ids b' q) = emitted p1 ++ [EvRecord unknown_record]
  /\ _checkRecType (on_data ids b' q) = true
  /\ emitted (on_end q) = emitted p1 ++ [EvDone unknown_record].
Proof.
  intros D Hb Hb' Hblanks Hl He Hm Hbody p1 q.
  destruct (on_data_begin b p Hb) as (_ & S1 & _ & C1 & _). fold p1 in S1, C1.
  (* the blank lines *)
  destruct (feed_blanks blanks p1 Hblanks) as (C2 & K2 & L2 & B2 & _).
  set (p2 := feed ids p1 blanks) in *.
  (* the line that matches nothing *)
  assert (T : type_checked ids p2 l = true).
  { unfold type_checked. now rewrite Hl, He, C2, C1. }
  assert (E3 : on_data ids l p2 =
               set_buildKey None
                 (console_log l (set_foundType false (set_checkRecType false p2)))).
  { rewrite (on_data_type_checked l p2 T), (_checkType_no_match l (lastBegin p2) p2 Hm).
    reflexivity. }
  set (p3 := on_data ids l p2) in *.
  assert (C3 : _checkRecType p3 = false) by now rewrite E3.
  assert (K3 : buildKey p3 = None) by now rewrite E3.
  (* the lines after it *)
  destruct (feed_untyped body p3 C3 K3 Hbody) as (_ & K4 & L4 & B4).
  assert (Q : q = feed ids p3 body).
  { unfold q. rewrite feed_app. reflexivity. }
  assert (N : no_begin ids (blanks ++ l :: body) = true).
  { unfold no_begin in *. rewrite forallb_app. simpl. rewrite Hl, Hbody. simpl.
    rewrite andb_true_r. rewrite forallb_forall in *. intros x Hx.
    specialize (Hblanks x Hx). now apply andb_true_iff in Hblanks as [? _]. }
  destruct (feed_no_begin (blanks ++ l :: body) p1 N) as (Eq & Sq & _). fold q in Eq, Sq.
  assert (Bq : built q = unknown_record).
  { unfold built. rewrite Q, K4. apply buildRecord_undefined. }
  destruct (on_data_begin b' q Hb') as (Eb & _ & _ & Cb & _).
  rewrite Sq, S1 in Eb. fold (built q) in Eb.
  repeat split.
  - exact Eq.
  - rewrite Q, L4, E3. simpl. now rewrite L2.
  - rewrite Q, (B4 D), E3. simpl. exact B2.
  - exact Bq.
  - now rewrite Eb, Bq, Eq.
  - exact Cb.
  - now rewrite on_end_emitted, Bq, Eq.
Qed.

(** ** At most one type check per record *)

(** C10: among lines with no begin sentinel, at most one is handed to
    [_checkType].  The line that is handed to it clears the type check flag
    whatever it is; if it matches none of the five type sentinels the key
    variable becomes [undefined], it stays so until the next begin line,
    and every later line that is neither the begin sentinel nor empty goes
    to [addLineTo] under the [undefined] key. *)
Theorem one_type_check_per_record :
  (forall (body : list Buffer) (p : WARCParser B K),
     no_begin ids body = true -> type_checks ids p body <= 1)
  /\ (forall (line : Buffer) (p : WARCParser B K),
       type_checked ids p line = true ->
       _checkRecType (on_data ids line p) = false)
  /\ (forall (line next : Buffer) (between : list Buffer) (p : WARCParser B K),
       type_checked ids p line = true ->
       matches_no_type ids line = true ->
       no_begin ids between = true ->
       equals (begin ids) next = false ->
       equals (empty ids) next = false ->
       let q := feed ids (on_data ids line p) between in
       buildKey (on_data ids line p) = None
       /\ buildKey q = None
       /\ type_checks ids (on_data ids line p) between = 0
       /\ on_data ids next q =
            set_builder (addLineTo (_builder q) None (_crlfCounter q) next) q).
Proof.
  assert (Hclear : forall (line : Buffer) (p : WARCParser B K),
            type_checked ids p line = true ->
            _checkRecType (on_data ids line p) = false).
  { intros line p T. pose proof T as T'. unfold type_checked in T'.
    apply andb_true_iff in T' as [Hb Hc]. apply negb_true_iff in Hb.
    apply andb_true_iff in Hc as [Hc He]. apply negb_true_iff in He.
    now rewrite on_data_flag, He, andb_false_r. }
  split; [|split].
  - induction body as [|l body IH]; intros p H; simpl in *; [lia|].
    apply andb_true_iff in H as [Hl Hbody].
    destruct (type_checked ids p l) eqn:T.
    + rewrite (type_checks_clear body (on_data ids l p)); auto.
    + specialize (IH (on_data ids l p) Hbody). lia.
  - exact Hclear.
  - intros line next between p T Hm Hbetween Hn He q.
    assert (K1 : buildKey (on_data ids line p) = None).
    { now rewrite (on_data_type_checked line p T),
        (_checkType_no_match line (lastBegin p) p Hm). }
    pose proof (Hclear line p T) as C1.
    destruct (feed_untyped between (on_data ids line p) C1 K1 Hbetween) as (Cq & Kq & _).
    fold q in Cq, Kq.
    repeat split; auto.
    + now apply type_checks_clear.
    + rewrite (on_data_content next q Cq Hn He), Kq. reflexivity.
Qed.

(** ** Two sessions on the same lines *)

Lemma erase_source_checkType (line : Buffer) (lb : option Buffer) (p : WARCParser B K) :
  _checkType ids line lb (erase_source p) =
    (fst (_checkType ids line lb p), erase_source (snd (_checkType ids line lb p))).
Proof.
  rewrite !_checkType_cases. unfold return_init, erase_source. simpl.
  repeat match goal with
         | |- context [if ?c then _ else _] => destruct c
         | |- context [let (_, _) := ?x in _] => destruct x
         end; reflexivity.
Qed.

(** The ['data'] handler does not look at the source. *)
Lemma erase_source_on_data (line : Buffer) (p : WARCParser B K) :
  erase_source (on_data ids line p) = on_data ids line (erase_source p).
Proof.
  unfold on_data.
  destruct (equals (begin ids) line).
  - destruct (_starting p) eqn:S; simpl; rewrite S; reflexivity.
  - change (_checkRecType (erase_source p)) with (_checkRecType p).
    change (lastBegin (erase_source p)) with (lastBegin p).
    destruct (_checkRecType p && negb (equals (empty ids) line)).
    + rewrite erase_source_checkType.
      destruct (_checkType ids line (lastBegin p) p). reflexivity.
    + destruct (equals (empty ids) line); reflexivity.
Qed.

Lemma erase_source_feed (lines : list Buffer) (p : WARCParser B K) :
  erase_source (feed ids p lines) = feed ids (erase_source p) lines.
Proof.
  revert p. induction lines as [|l lines IH]; intros p; simpl; [reflexivity|].
  fold (feed ids (on_data ids l p) lines).
  fold (feed ids (on_data ids l (erase_source p)) lines).
  now rewrite IH, erase_source_on_data.
Qed.

(** Neither does the ['end'] handler, apart from destroying the stream. *)
Lemma erase_source_on_end (p : WARCParser B K) :
  erase_source (on_end p) = on_end (erase_source p).
Proof. reflexivity. Qed.

(** Two parsers that differ in their source only emit the same
    notifications on the same lines. *)
Lemma same_lines_same_notifications (lines : list Buffer) (p1 p2 : WARCParser B K) :
  erase_source p1 = erase_source p2 ->
  emitted (on_end (feed ids p1 lines)) = emitted (on_end (feed ids p2 lines)).
Proof.
  intros H.
  change (emitted (erase_source (on_end (feed ids p1 lines)))
          = emitted (erase_source (on_end (feed ids p2 lines)))).
  now rewrite !erase_source_on_end, !erase_source_feed, H.
Qed.

(** The ['data'] handler emits ['record'] notifications only. *)
Lemma feed_emits_records (lines : list Buffer) (p : WARCParser B K) :
  exists rs : list RecordModel,
    emitted (feed ids p lines) = emitted p ++ map EvRecord rs.
Proof.
  revert p. induction lines as [|l lines IH]; intros p; simpl.
  - exists []. simpl. now rewrite app_nil_r.
  - fold (feed ids (on_data ids l p) lines).
    destruct (IH (on_data ids l p)) as [rs E]. rewrite E.
    destruct (equals (begin ids) l) eqn:Hb.
    + destruct (on_data_begin l p Hb) as (E' & _). rewrite E'.
      destruct (_starting p).
      * now exists rs.
      * exists (buildRecord (_builder p) (buildKey p) :: rs).
        now rewrite <- app_assoc.
    + destruct (on_data_frame l p Hb) as (_ & _ & _ & _ & _ & E'). rewrite E'.
      now exists rs.
Qed.

End ParserProperties.

(** * The properties on a concrete session *)

(** The builder after the spec degrades on an [undefined] key. *)
Lemma spec_builder_degrades :
  BuilderDegrades SpecBuilder.BuilderState RecordType.
Proof. split; reflexivity. Qed.

(** On the sentinel table after the spec, the revisit type line is answered
    with [undefined] and a console line, and the builder stays fresh. *)
Lemma _checkType_revisit_line_witness :
  _checkType SpecBuilder.fieldIdentifiers (buf "WARC-Type: revisit")
    (Some (buf "WARC/1.0")) SpecBuilder.awaiting_type
  = (None,
     console_log (buf "WARC-Type: revisit")
       (set_foundType false (set_checkRecType false SpecBuilder.awaiting_type))).
Proof.
  exact (proj1 (_checkType_revisit_line SpecBuilder.fieldIdentifiers
                  (Some (buf "WARC/1.0")) SpecBuilder.awaiting_type
                  eq_refl eq_refl eq_refl eq_refl)).
Defined.

(** A warcinfo record followed by a metadata record: one ['record'] and one
    ['done'] notification. *)
Lemma session_notifications_witness :
  exists (rs : list RecordModel) (r : RecordModel),
    results SpecBuilder.fieldIdentifiers
      (snd (start SpecBuilder.plain_path (new_WARCParser (path_string "a.warc"))))
      [SpecBuilder.info_record; SpecBuilder.mdata_record] = rs ++ [r]
    /\ length rs = 1
    /\ emitted (session SpecBuilder.fieldIdentifiers SpecBuilder.plain_path
                  (new_WARCParser (path_string "a.warc"))
                  (SpecBuilder.info_record ++ SpecBuilder.mdata_record ++ []))
       = [] ++ map EvRecord rs ++ [EvDone r].
Proof.
  apply (session_notifications SpecBuilder.fieldIdentifiers SpecBuilder.plain_path
           (w := "a.warc") (recs := [SpecBuilder.info_record; SpecBuilder.mdata_record])
           (new_WARCParser (path_string "a.warc")));
    [reflexivity | reflexivity | discriminate | reflexivity].
Defined.

(** A garbage type line after a warcinfo record: the record that follows the
    warcinfo record comes out empty, and the warcinfo record comes out once. *)
Lemma untyped_record_degrades_witness :
  emitted (on_end (feed SpecBuilder.fieldIdentifiers SpecBuilder.awaiting_second_type
                     ([buf ""] ++ SpecBuilder.garbage :: [buf "X: y"; buf ""; buf "body"])))
  = emitted SpecBuilder.awaiting_second_type ++ [EvDone unknown_record].
Proof.
  apply (untyped_record_degrades SpecBuilder.fieldIdentifiers
           (buf "WARC/1.0") (buf "WARC/1.0") SpecBuilder.garbage
           [buf ""] [buf "X: y"; buf ""; buf "body"] SpecBuilder.after_info
           spec_builder_degrades eq_refl eq_refl eq_refl eq_refl eq_refl eq_refl eq_refl).
Defined.

(** [start] and [parseWARC] on parsers that are not parsing. *)
Lemma start_returns_undefined_witness :
  fst (start SpecBuilder.plain_path
         (new_WARCParser (B := SpecBuilder.BuilderState) (K := RecordType)
            (path_string "a.warc")))
  = Return js_undefined
  /\ fst (parseWARC SpecBuilder.plain_path (path_string "a.warc")
            (new_WARCParser (B := SpecBuilder.BuilderState) (K := RecordType) path_null))
     = Return js_undefined.
Proof.
  split.
  - exact (proj1 (proj1 (start_returns_undefined SpecBuilder.plain_path "a.warc"
                           (new_WARCParser (path_string "a.warc")) eq_refl) eq_refl)).
  - exact (proj1 (proj2 (start_returns_undefined SpecBuilder.plain_path "a.warc"
                           (new_WARCParser path_null) eq_refl) eq_refl)).
Defined.

(** The begin line after the warcinfo record emits the warcinfo record. *)
Lemma on_data_begin_witness :
  emitted (on_data SpecBuilder.fieldIdentifiers (buf "WARC/1.0") SpecBuilder.after_info)
  = [EvRecord {| type := Info;
                 headers := [(buf "WARC-Type", buf "warcinfo");
                             (buf "WARC-Filename", buf "a.warc")];
                 payload := [] |}]
  /\ _crlfCounter (on_data SpecBuilder.fieldIdentifiers (buf "WARC/1.0")
                     SpecBuilder.after_info) = 0
  /\ _checkRecType (on_data SpecBuilder.fieldIdentifiers (buf "WARC/1.0")
                      SpecBuilder.after_info) = true.
Proof.
  destruct (on_data_begin SpecBuilder.fieldIdentifiers (buf "WARC/1.0")
              SpecBuilder.after_info eq_refl) as (E & _ & C & F & _).
  split; [exact E | split; [exact C | exact F]].
Defined.

(** [start] on a parser constructed without a path. *)
Lemma start_without_path_witness :
  start SpecBuilder.plain_path
    (new_WARCParser (B := SpecBuilder.BuilderState) (K := RecordType) path_undefined)
  = (Throw "The path to the WARC file is undefined", new_WARCParser path_undefined).
Proof.
  exact (proj1 (start_without_path path_undefined
                  (reach_new SpecBuilder.fieldIdentifiers SpecBuilder.plain_path
                     path_undefined)
                  (or_introl eq_refl))).
Defined.

(** [start] in the middle of a session. *)
Lemma start_while_parsing_witness :
  _parsing SpecBuilder.after_info = true
  /\ start SpecBuilder.plain_path SpecBuilder.after_info
     = (Return (js_bool false), SpecBuilder.after_info)
  /\ parseWARC SpecBuilder.plain_path (path_string "b.warc") SpecBuilder.after_info
     = (Return (js_bool false), SpecBuilder.after_info).
Proof.
  split; [reflexivity|].
  exact (start_while_parsing SpecBuilder.plain_path (path_string "b.warc")
           SpecBuilder.after_info eq_refl).
Defined.

(** After a garbage type line the key is [undefined] and a header line goes
    to [addLineTo] under it. *)
Lemma one_type_check_per_record_witness :
  type_checks SpecBuilder.fieldIdentifiers SpecBuilder.awaiting_second_type
    [buf ""; SpecBuilder.garbage; buf "X: y"] <= 1
  /\ buildKey (on_data SpecBuilder.fieldIdentifiers SpecBuilder.garbage
                 SpecBuilder.awaiting_second_type) = None.
Proof.
  destruct (one_type_check_per_record (B := SpecBuilder.BuilderState) (K := RecordType)
              SpecBuilder.fieldIdentifiers) as (H1 & _ & H3).
  split.
  - exact (H1 [buf ""; SpecBuilder.garbage; buf "X: y"]
              SpecBuilder.awaiting_second_type eq_refl).
  - exact (proj1 (H3 SpecBuilder.garbage (buf "X: y") [buf ""]
                     SpecBuilder.awaiting_second_type
                     eq_refl eq_refl eq_refl eq_refl eq_refl)).
Defined.

(** The key variable does not keep the key of the record before: the
    warcinfo record has left the key of an info record in it, and the
    garbage type line of the next record replaces it with [undefined]. *)
Lemma stale_key_counterexample :
  type_checked SpecBuilder.fieldIdentifiers SpecBuilder.awaiting_second_type
    SpecBuilder.garbage = true
  /\ matches_no_type SpecBuilder.fieldIdentifiers SpecBuilder.garbage = true
  /\ buildKey SpecBuilder.awaiting_second_type = Some Info
  /\ buildKey (on_data SpecBuilder.fieldIdentifiers SpecBuilder.garbage
                 SpecBuilder.awaiting_second_type)
     <> buildKey SpecBuilder.awaiting_second_type.
Proof.
  repeat split; try reflexivity. vm_compute. discriminate.
Qed.

(** * Further properties of the parser *)

Section FurtherProperties.

Context {B K : Type} {builder_ops : RecordBuilder B K}.
Variable ids : FieldIdentifiers.
Variable untildify : string -> string.

(** ** Counting over arbitrary streams *)

(** What [start] leaves when it opens a session. *)
Lemma start_opens (w : string) (p : WARCParser B K) :
  _parsing p = false ->
  _wp p = path_string w ->
  start untildify p =
    (Return js_undefined,
     set_readStream (Some (createReadStream (untildify w)))
       (set_buildKey None (set_lastBegin None (set_parsing true (set_starting true p))))).
Proof. intros Hp Hw. unfold start. now rewrite Hp, Hw. Qed.

Lemma count_begin_cons (l : Buffer) (lines : list Buffer) :
  count_begin ids (l :: lines) =
    (if equals (begin ids) l then 1 else 0) + count_begin ids lines.
Proof. unfold count_begin. simpl. now destruct (equals (begin ids) l). Qed.

(** The ['record'] notifications of any lines: one for each begin line, but
    for the first begin line of the session. *)
Lemma feed_record_count (lines : list Buffer) (p : WARCParser B K) :
  exists rs : list RecordModel,
    emitted (feed ids p lines) = emitted p ++ map EvRecord rs
    /\ length rs =
         (if _starting p then count_begin ids lines - 1 else count_begin ids lines).
Proof.
  revert p. induction lines as [|l lines IH]; intros p.
  - exists []. simpl. rewrite app_nil_r. now destruct (_starting p).
  - simpl. fold (feed ids (on_data ids l p) lines).
    destruct (IH (on_data ids l p)) as (rs & E & L). rewrite E, count_begin_cons.
    destruct (equals (begin ids) l) eqn:Hb.
    + destruct (on_data_begin ids l p Hb) as (E' & S' & _). rewrite S' in L. rewrite E'.
      destruct (_starting p).
      * exists rs. split; [reflexivity | simpl; lia].
      * exists (buildRecord (_builder p) (buildKey p) :: rs).
        rewrite <- app_assoc. split; [reflexivity | simpl; lia].
    + destruct (on_data_frame ids l p Hb) as (_ & _ & S' & _ & _ & E').
      rewrite S' in L. rewrite E'. exists rs. split; [reflexivity | exact L].
Qed.

(** X1: whatever the lines of the stream are, a session emits one ['record']
    notification for each begin line after the first one, then one ['done']
    notification with the record in progress at the end, and nothing else. *)
Theorem session_notification_count (w : string) (lines : list Buffer) (p : WARCParser B K) :
  _parsing p = false ->
  _wp p = path_string w ->
  exists rs : list RecordModel,
    emitted (session ids untildify p lines) =
      emitted p ++ map EvRecord rs
        ++ [EvDone (built (feed ids (snd (start untildify p)) lines))]
    /\ length rs = count_begin ids lines - 1.
Proof.
  intros Hp Hw. unfold session. rewrite on_end_emitted.
  destruct (feed_record_count lines (snd (start untildify p))) as (rs & E & L).
  rewrite (@start_opens w p Hp Hw) in E, L. simpl in E, L.
  exists rs. rewrite (@start_opens w p Hp Hw). simpl. rewrite E, <- app_assoc. auto.
Qed.

(** X2: over any lines, the lines handed to [_checkType] are at most one for
    each begin line, and one more if the type check flag was set before. *)
Theorem type_checks_bound (lines : list Buffer) (p : WARCParser B K) :
  type_checks ids p lines
    <= (if _checkRecType p then 1 else 0) + count_begin ids lines.
Proof.
  revert p. induction lines as [|l lines IH]; intros p; simpl; [lia|].
  specialize (IH (on_data ids l p)). rewrite count_begin_cons.
  unfold type_checked.
  destruct (equals (begin ids) l) eqn:Hb; simpl.
  - destruct (_checkRecType (on_data ids l p)), (_checkRecType p); lia.
  - rewrite (on_data_flag ids l p Hb) in IH.
    destruct (_checkRecType p), (equals (empty ids) l); simpl in *; lia.
Qed.

(** ** The blank-line count and the lines the builder receives *)

Lemma count_empty_cons (l : Buffer) (lines : list Buffer) :
  count_empty ids (l :: lines) =
    (if equals (empty ids) l then 1 else 0) + count_empty ids lines.
Proof. unfold count_empty. simpl. now destruct (equals (empty ids) l). Qed.

(** The counter after a line that is not the begin sentinel. *)
Lemma on_data_counter (line : Buffer) (p : WARCParser B K) :
  equals (begin ids) line = false ->
  _crlfCounter (on_data ids line p) =
    _crlfCounter p + (if equals (empty ids) line then 1 else 0).
Proof.
  intros Hb. unfold on_data. rewrite Hb.
  destruct (equals (empty ids) line) eqn:He.
  - rewrite andb_false_r. reflexivity.
  - rewrite andb_true_r. destruct (_checkRecType p); simpl; [|lia].
    pose proof (_checkType_frame ids line (lastBegin p) p) as F.
    destruct (_checkType ids line (lastBegin p) p) as [k q]. simpl in *.
    destruct F as (_ & _ & _ & _ & F & _). rewrite F. lia.
Qed.

(** X3: after a begin line, the blank-line counter is the number of empty
    lines met since, those before the type line included. *)
Theorem blank_line_count (b : Buffer) (body : list Buffer) (p : WARCParser B K) :
  equals (begin ids) b = true ->
  no_begin ids body = true ->
  _crlfCounter (feed ids (on_data ids b p) body) = count_empty ids body.
Proof.
  intros Hb Hbody.
  destruct (on_data_begin ids b p Hb) as (_ & _ & C & _).
  assert (G : forall (ls : list Buffer) (q : WARCParser B K),
            no_begin ids ls = true ->
            _crlfCounter (feed ids q ls) = _crlfCounter q + count_empty ids ls).
  { induction ls as [|l ls IH]; intros q H; simpl in *.
    - unfold count_empty. simpl. lia.
    - apply andb_true_iff in H as [Hl Hls]. apply negb_true_iff in Hl.
      fold (feed ids (on_data ids l q) ls).
      rewrite (IH _ Hls), (on_data_counter l q Hl), count_empty_cons. lia. }
  rewrite (G body _ Hbody), C. reflexivity.
Qed.

(** Once the type line is behind, the lines up to the next begin line reach
    the builder as follows. *)
Lemma feed_content (body : list Buffer) (p : WARCParser B K) :
  _checkRecType p = false ->
  no_begin ids body = true ->
  _builder (feed ids p body) =
    add_all (_builder p) (buildKey p) (forwarded ids (_crlfCounter p) body)
  /\ buildKey (feed ids p body) = buildKey p
  /\ _checkRecType (feed ids p body) = false
  /\ console (feed ids p body) = console p.
Proof.
  revert p. induction body as [|l body IH]; intros p Hc H; simpl in *; [auto|].
  apply andb_true_iff in H as [Hl Hbody]. apply negb_true_iff in Hl.
  fold (feed ids (on_data ids l p) body).
  assert (E : on_data ids l p =
              if equals (empty ids) l then set_crlfCounter (_crlfCounter p + 1) p
              else set_builder (addLineTo (_builder p) (buildKey p) (_crlfCounter p) l) p).
  { unfold on_data. rewrite Hl, Hc. reflexivity. }
  assert (Hc' : _checkRecType (on_data ids l p) = false).
  { rewrite E. now destruct (equals (empty ids) l). }
  destruct (IH (on_data ids l p) Hc' Hbody) as (Bd & Ky & C & L).
  rewrite Bd, Ky, C, L, E.
  destruct (equals (empty ids) l); simpl; auto.
Qed.

(** X4: once the type line of a record is behind, every line up to the next
    begin line that is not empty is passed to [addLineTo], in order, under
    the key of the record and with the number of empty lines met so far in
    the record; empty lines are not passed on, and the key does not change. *)
Theorem content_lines_forwarded (body : list Buffer) (p : WARCParser B K) :
  _checkRecType p = false ->
  no_begin ids body = true ->
  _builder (feed ids p body) =
    add_all (_builder p) (buildKey p) (forwarded ids (_crlfCounter p) body)
  /\ buildKey (feed ids p body) = buildKey p
  /\ built (feed ids p body) =
       buildRecord
         (add_all (_builder p) (buildKey p) (forwarded ids (_crlfCounter p) body))
         (buildKey p).
Proof.
  intros Hc H. destruct (feed_content body p Hc H) as (Bd & Ky & _).
  unfold built. rewrite Bd, Ky. auto.
Qed.

(** X5: a stream without a begin line, on a parser whose type check flag is
    clear (as it is on a new parser): no line is handed to [_checkType],
    no ['record'] is emitted, and the single ['done'] carries what
    [buildRecord] gives for the [undefined] key once the lines that are not
    empty have gone to [addLineTo] under that key.  For the empty stream
    this is [buildRecord] on the builder as it was. *)
Theorem stream_without_begin (w : string) (lines : list Buffer) (p : WARCParser B K) :
  _parsing p = false ->
  _wp p = path_string w ->
  _checkRecType p = false ->
  no_begin ids lines = true ->
  emitted (session ids untildify p lines) =
    emitted p ++
      [EvDone (buildRecord
                 (add_all (_builder p) None (forwarded ids (_crlfCounter p) lines))
                 None)]
  /\ type_checks ids (snd (start untildify p)) lines = 0
  /\ console (session ids untildify p lines) = console p.
Proof.
  intros Hp Hw Hc H. unfold session. rewrite (@start_opens w p Hp Hw). cbn [snd].
  set (q := set_readStream _ _).
  assert (Hq : _checkRecType q = false) by exact Hc.
  destruct (feed_content lines q Hq H) as (Bd & Ky & _ & L).
  destruct (feed_no_begin ids lines q H) as (E & _).
  rewrite on_end_emitted. unfold built. rewrite Bd, Ky, E.
  repeat split.
  - now apply type_checks_clear.
  - exact L.
Qed.

(** ** The four types that are recognised *)

(** X6: the line handed to [_checkType] is compared with the request, the
    response, the info and the metadata sentinel, in this order, and the
    first that is equal decides: the builder is initialised by the [init]
    operation of that type with the last begin line and the line itself, the
    key variable takes the key this operation returns, [_foundType] is set
    and the type check flag cleared; nothing is emitted or logged. *)
Theorem type_line_initialises (t : Buffer) (p : WARCParser B K) :
  type_checked ids p t = true ->
  let initialised (init : B -> option Buffer -> Buffer -> B * K) :=
    set_buildKey (Some (snd (init (_builder p) (lastBegin p) t)))
      (set_builder (fst (init (_builder p) (lastBegin p) t))
         (set_foundType true (set_checkRecType false p))) in
  (equals (req ids) t = true -> on_data ids t p = initialised initReq)
  /\ (equals (req ids) t = false -> equals (res ids) t = true ->
      on_data ids t p = initialised initRes)
  /\ (equals (req ids) t = false -> equals (res ids) t = false ->
      equals (info ids) t = true -> on_data ids t p = initialised initInfo)
  /\ (equals (req ids) t = false -> equals (res ids) t = false ->
      equals (info ids) t = false -> equals (mdata ids) t = true ->
      on_data ids t p = initialised initMdata).
Proof.
  intros T initialised. rewrite (on_data_type_checked ids t p T), _checkType_cases.
  unfold initialised, return_init. simpl.
  repeat split; intros;
    repeat match goal with H : equals _ t = _ |- _ => rewrite H; clear H end;
    match goal with |- context [let (_, _) := ?x in _] => destruct x end; reflexivity.
Qed.

(** ** Errors of the transport *)

Lemma errors_in_app (a b : list Event) :
  errors_in (a ++ b) = errors_in a ++ errors_in b.
Proof.
  induction a as [|e a IH]; simpl; [reflexivity|].
  destruct e; simpl; now rewrite IH.
Qed.

Lemma drop_errors_checkType (line : Buffer) (lb : option Buffer) (p : WARCParser B K) :
  _checkType ids line lb (drop_errors p) =
    (fst (_checkType ids line lb p), drop_errors (snd (_checkType ids line lb p))).
Proof.
  rewrite !_checkType_cases. unfold return_init, drop_errors. simpl.
  repeat match goal with
         | |- context [if ?c then _ else _] => destruct c
         | |- context [let (_, _) := ?x in _] => destruct x
         end; reflexivity.
Qed.

Lemma drop_errors_on_data (line : Buffer) (p : WARCParser B K) :
  drop_errors (on_data ids line p) = on_data ids line (drop_errors p).
Proof.
  unfold on_data.
  destruct (equals (begin ids) line).
  - destruct (_starting p) eqn:S; unfold drop_errors; simpl; rewrite S; simpl;
      [reflexivity|].
    rewrite filter_app. reflexivity.
  - change (_checkRecType (drop_errors p)) with (_checkRecType p).
    change (lastBegin (drop_errors p)) with (lastBegin p).
    destruct (_checkRecType p && negb (equals (empty ids) line)).
    + rewrite drop_errors_checkType.
      destruct (_checkType ids line (lastBegin p) p). reflexivity.
    + destruct (equals (empty ids) line); reflexivity.
Qed.

Lemma drop_errors_on_end (p : WARCParser B K) :
  drop_errors (on_end p) = on_end (drop_errors p).
Proof. unfold drop_errors, on_end. simpl. rewrite filter_app. reflexivity. Qed.

Lemma drop_errors_on_error (e : string) (p : WARCParser B K) :
  drop_errors (on_error e p) = drop_errors p.
Proof. unfold drop_errors, on_error. simpl. rewrite filter_app. simpl. now rewrite app_nil_r. Qed.

Lemma deliver_errors_in (ev : StreamEvent) (p : WARCParser B K) :
  errors_in (emitted (deliver ids p ev)) =
    errors_in (emitted p) ++ errors_of [ev].
Proof.
  destruct ev as [line | e |]; simpl.
  - rewrite app_nil_r. destruct (equals (begin ids) line) eqn:Hb.
    + destruct (on_data_begin ids line p Hb) as (E & _). rewrite E.
      destruct (_starting p); [reflexivity|].
      rewrite errors_in_app. simpl. now rewrite app_nil_r.
    + destruct (on_data_frame ids line p Hb) as (_ & _ & _ & _ & _ & E). now rewrite E.
  - now rewrite errors_in_app.
  - rewrite errors_in_app. reflexivity.
Qed.

(** X7: an error of the transport is forwarded and changes nothing else.
    Over any sequence of events the parser ends in the state it reaches
    without the errors, apart from the ['error'] notifications, and these
    carry the errors of the transport one for one, in order: lines that
    come after an error are parsed as if there had been none. *)
Theorem errors_only_forwarded (evs : list StreamEvent) (p : WARCParser B K) :
  drop_errors (run ids p evs) = run ids (drop_errors p) (data_only evs)
  /\ errors_in (emitted (run ids p evs)) = errors_in (emitted p) ++ errors_of evs.
Proof.
  revert p. induction evs as [|ev evs IH]; intros p.
  - simpl. now rewrite app_nil_r.
  - change (run ids p (ev :: evs)) with (run ids (deliver ids p ev) evs).
    destruct (IH (deliver ids p ev)) as (D & E). rewrite D, E, deliver_errors_in.
    split.
    + destruct ev as [line | e |]; simpl.
      * now rewrite drop_errors_on_data.
      * now rewrite drop_errors_on_error.
      * now rewrite drop_errors_on_end.
    + rewrite <- app_assoc. f_equal. destruct ev; reflexivity.
Qed.

(** ** Sessions one after the other *)

(** Lines leave the source and the parsing flag alone. *)
Lemma feed_source (lines : list Buffer) (p : WARCParser B K) :
  _wp (feed ids p lines) = _wp p
  /\ _readStream (feed ids p lines) = _readStream p
  /\ _parsing (feed ids p lines) = _parsing p.
Proof.
  revert p. induction lines as [|l lines IH]; intros p; simpl; [auto|].
  fold (feed ids (on_data ids l p) lines).
  destruct (IH (on_data ids l p)) as (W & R & P).
  destruct (on_data_source ids l p) as (W' & R' & P').
  rewrite W, R, P. auto.
Qed.

(** X8: a session opened with [parseWARC] on a parser that is not parsing
    reads from the path given, or from the configured path when the path
    given is [null], [undefined] or empty.  When its stream ends, whatever
    the lines were, the parser is not parsing, the stream is destroyed, the
    builder is cleared and the path is kept; a later [start] is accepted
    and opens a new stream on that same path. *)
Theorem session_end_allows_restart
    (wp : PathValue) (w : string) (lines : list Buffer) (p : WARCParser B K) :
  _parsing p = false ->
  js_or wp (_wp p) = path_string w ->
  let opened := snd (parseWARC untildify wp p) in
  let q := on_end (feed ids opened lines) in
  _readStream opened = Some (createReadStream (untildify w))
  /\ _parsing q = false
  /\ _readStream q = Some (destroy (createReadStream (untildify w)))
  /\ _builder q = clear (_builder (feed ids opened lines))
  /\ _wp q = path_string w
  /\ fst (start untildify q) = Return js_undefined
  /\ _readStream (snd (start untildify q)) = Some (createReadStream (untildify w))
  /\ _parsing (snd (start untildify q)) = true.
Proof.
  intros Hp Hw opened q.
  assert (O : opened =
              set_readStream (Some (createReadStream (untildify w)))
                (set_buildKey None (set_lastBegin None (set_parsing true
                   (set_starting true (set_wp (path_string w) p)))))).
  { unfold opened, parseWARC. rewrite Hp. simpl. rewrite Hw.
    now rewrite (@start_opens w (set_wp (path_string w) p)). }
  destruct (feed_source lines opened) as (W & R & P).
  assert (Wq : _wp q = path_string w) by (unfold q; simpl; now rewrite W, O).
  assert (Pq : _parsing q = false) by reflexivity.
  rewrite (@start_opens w q Pq Wq).
  repeat split; auto.
  - now rewrite O.
  - unfold q. simpl. now rewrite R, O.
Qed.


(** ** The record a whole record's lines give *)

(** X11: the lines of one record are a begin line, blank lines, a line that
    is neither, and lines without a begin line.  The record in progress
    after them is what [buildRecord] gives, under the key [_checkType]
    returned for the type line and that begin line, once the lines after
    the type line that are not empty have gone to [addLineTo] under this
    key; the blank lines before the type line count in the numbers they
    are passed with.  What the builder held before is what the begin line
    left: the ['data'] handler does not reset it. *)
Theorem record_assembly
    (b t : Buffer) (blanks body : list Buffer) (p : WARCParser B K) :
  equals (begin ids) b = true ->
  forallb (fun x => negb (equals (begin ids) x) && equals (empty ids) x) blanks = true ->
  equals (begin ids) t = false ->
  equals (empty ids) t = false ->
  no_begin ids body = true ->
  let awaiting := feed ids (on_data ids b p) blanks in
  let checked := _checkType ids t (Some b) awaiting in
  _builder awaiting = _builder p
  /\ built (feed ids p (b :: blanks ++ t :: body)) =
       buildRecord
         (add_all (_builder (snd checked)) (fst checked)
            (forwarded ids (length blanks) body))
         (fst checked).
Proof.
  intros Hb Hblanks Ht He Hbody awaiting checked.
  destruct (on_data_begin ids b p Hb) as (_ & _ & C1 & T1 & B1 & _).
  destruct (feed_blanks ids blanks (on_data ids b p) Hblanks)
    as (T2 & _ & _ & B2 & _ & C2).
  fold awaiting in T2, B2, C2.
  assert (N : no_begin ids blanks = true).
  { unfold no_begin. rewrite forallb_forall in *. intros x Hx.
    specialize (Hblanks x Hx). now apply andb_true_iff in Hblanks as [? _]. }
  destruct (feed_no_begin ids blanks (on_data ids b p) N) as (_ & _ & L2).
  fold awaiting in L2.
  assert (L1 : lastBegin (on_data ids b p) = Some b).
  { unfold on_data. rewrite Hb. reflexivity. }
  assert (T : type_checked ids awaiting t = true).
  { unfold type_checked. now rewrite Ht, He, T2, T1. }
  pose proof (on_data_type_checked ids t awaiting T) as E3.
  rewrite L2, L1 in E3. fold checked in E3.
  pose proof (_checkType_frame ids t (Some b) awaiting) as F. fold checked in F.
  simpl in F. destruct F as (_ & _ & _ & _ & Fc & _ & _ & _ & Ft).
  split; [now rewrite B2, B1|].
  change (feed ids p (b :: blanks ++ t :: body))
    with (feed ids (on_data ids b p) (blanks ++ t :: body)).
  rewrite feed_app. fold awaiting. simpl.
  fold (feed ids (on_data ids t awaiting) body). rewrite E3.
  set (typed := set_buildKey (fst checked) (snd checked)).
  assert (Tt : _checkRecType typed = false) by exact Ft.
  destruct (feed_content body typed Tt Hbody) as (Bd & Ky & _).
  unfold built. rewrite Bd, Ky. unfold typed. simpl.
  rewrite Fc, C2, C1. reflexivity.
Qed.

End FurtherProperties.

(** * The further properties on a concrete session *)

(** The warcinfo and the metadata record with a line in front: three
    notifications would need three begin lines. *)
Lemma session_notification_count_witness :
  exists rs : list RecordModel,
    emitted (session SpecBuilder.fieldIdentifiers SpecBuilder.plain_path
               (new_WARCParser (path_string "a.warc"))
               (SpecBuilder.garbage :: SpecBuilder.info_record ++ SpecBuilder.mdata_record))
    = [] ++ map EvRecord rs
        ++ [EvDone (built (feed SpecBuilder.fieldIdentifiers
                             (snd (start SpecBuilder.plain_path
                                     (new_WARCParser (path_string "a.warc"))))
                             (SpecBuilder.garbage
                                :: SpecBuilder.info_record ++ SpecBuilder.mdata_record)))]
    /\ length rs = 1.
Proof.
  exact (session_notification_count SpecBuilder.fieldIdentifiers SpecBuilder.plain_path
           (w := "a.warc")
           (SpecBuilder.garbage :: SpecBuilder.info_record ++ SpecBuilder.mdata_record)
           (new_WARCParser (path_string "a.warc")) eq_refl eq_refl).
Defined.

(** Two blank lines in a record, one of them before the type line. *)
Lemma blank_line_count_witness :
  _crlfCounter
    (feed SpecBuilder.fieldIdentifiers
       (on_data SpecBuilder.fieldIdentifiers (buf "WARC/1.0") SpecBuilder.opened)
       [buf ""; buf "WARC-Type: request"; buf "X: y"; buf ""; buf "GET /"]) = 2.
Proof.
  exact (blank_line_count SpecBuilder.fieldIdentifiers (buf "WARC/1.0")
           [buf ""; buf "WARC-Type: request"; buf "X: y"; buf ""; buf "GET /"]
           SpecBuilder.opened eq_refl eq_refl).
Defined.

(** The lines after the type line of the warcinfo record. *)
Lemma content_lines_forwarded_witness :
  _builder (feed SpecBuilder.fieldIdentifiers
              (feed SpecBuilder.fieldIdentifiers SpecBuilder.awaiting_type
                 [buf "WARC-Type: warcinfo"])
              [buf "WARC-Filename: a.warc"; buf ""; buf "software: x"])
  = add_all (_builder (feed SpecBuilder.fieldIdentifiers SpecBuilder.awaiting_type
                         [buf "WARC-Type: warcinfo"]))
      (Some Info) [(0, buf "WARC-Filename: a.warc"); (1, buf "software: x")].
Proof.
  exact (proj1 (content_lines_forwarded SpecBuilder.fieldIdentifiers
                  [buf "WARC-Filename: a.warc"; buf ""; buf "software: x"]
                  (feed SpecBuilder.fieldIdentifiers SpecBuilder.awaiting_type
                     [buf "WARC-Type: warcinfo"])
                  eq_refl eq_refl)).
Defined.

(** The empty stream and a stream of two lines without a begin line. *)
Lemma stream_without_begin_witness :
  emitted (session SpecBuilder.fieldIdentifiers SpecBuilder.plain_path
             (new_WARCParser (path_string "a.warc")) [])
  = [EvDone unknown_record]
  /\ emitted (session SpecBuilder.fieldIdentifiers SpecBuilder.plain_path
                (new_WARCParser (path_string "a.warc"))
                [buf "WARC-Type: request"; buf ""])
     = [EvDone unknown_record].
Proof.
  split.
  - exact (proj1 (stream_without_begin SpecBuilder.fieldIdentifiers SpecBuilder.plain_path
                    (w := "a.warc") [] (new_WARCParser (path_string "a.warc"))
                    eq_refl eq_refl eq_refl eq_refl)).
  - exact (proj1 (stream_without_begin SpecBuilder.fieldIdentifiers SpecBuilder.plain_path
                    (w := "a.warc") [buf "WARC-Type: request"; buf ""]
                    (new_WARCParser (path_string "a.warc"))
                    eq_refl eq_refl eq_refl eq_refl)).
Defined.

(** A metadata type line after the first begin line. *)
Lemma type_line_initialises_witness :
  buildKey (on_data SpecBuilder.fieldIdentifiers (buf "WARC-Type: metadata")
              SpecBuilder.awaiting_type) = Some Metadata
  /\ SpecBuilder.headerLines
       (_builder (on_data SpecBuilder.fieldIdentifiers (buf "WARC-Type: metadata")
                    SpecBuilder.awaiting_type))
     = [buf "WARC/1.0"; buf "WARC-Type: metadata"].
Proof.
  pose proof (proj2 (proj2 (proj2
    (type_line_initialises SpecBuilder.fieldIdentifiers (buf "WARC-Type: metadata")
       SpecBuilder.awaiting_type eq_refl))) eq_refl eq_refl eq_refl eq_refl) as E.
  rewrite E. split; reflexivity.
Defined.

(** A session on [b.warc] with a parser constructed on [a.warc]. *)
Lemma session_end_allows_restart_witness :
  _wp (on_end (feed SpecBuilder.fieldIdentifiers
                 (snd (parseWARC SpecBuilder.plain_path (path_string "b.warc")
                         (new_WARCParser (path_string "a.warc"))))
                 SpecBuilder.info_record))
  = path_string "b.warc"
  /\ fst (start SpecBuilder.plain_path
            (on_end (feed SpecBuilder.fieldIdentifiers
                       (snd (parseWARC SpecBuilder.plain_path (path_string "b.warc")
                               (new_WARCParser (path_string "a.warc"))))
                       SpecBuilder.info_record)))
     = Return js_undefined.
Proof.
  destruct (session_end_allows_restart SpecBuilder.fieldIdentifiers SpecBuilder.plain_path
              (path_string "b.warc") (w := "b.warc") SpecBuilder.info_record
              (new_WARCParser (path_string "a.warc")) eq_refl eq_refl)
    as (_ & _ & _ & _ & W & S & _).
  split; [exact W | exact S].
Defined.


(** A response record with a blank line before its type line. *)
Lemma record_assembly_witness :
  built (feed SpecBuilder.fieldIdentifiers SpecBuilder.after_info
           (buf "WARC/1.0" :: [buf ""] ++ buf "WARC-Type: response"
              :: [buf "WARC-Date: x"; buf ""; buf "HTTP/1.1 200 OK"]))
  = {| type := Response;
       headers := [(buf "WARC-Type", buf "response"); (buf "WARC-Date", buf "x")];
       payload := [buf "HTTP/1.1 200 OK"] |}.
Proof.
  pose proof (proj2 (record_assembly SpecBuilder.fieldIdentifiers
                       (buf "WARC/1.0") (buf "WARC-Type: response") [buf ""]
                       [buf "WARC-Date: x"; buf ""; buf "HTTP/1.1 200 OK"]
                       SpecBuilder.after_info
                       eq_refl eq_refl eq_refl eq_refl eq_refl)) as E.
  rewrite E. reflexivity.
Defined.

(** * Sessions on a used parser, and listeners that call back *)

Section SessionsCompared.

Context {B K : Type} {builder_ops : RecordBuilder B K}.
Variable ids : FieldIdentifiers.
Variable untildify : string -> string.

(** ** What a session depends on *)

Lemma session_view_checkType (line : Buffer) (lb : option Buffer) (p : WARCParser B K) :
  fst (_checkType ids line lb (session_view p)) = fst (_checkType ids line lb p)
  /\ session_view (snd (_checkType ids line lb (session_view p)))
     = session_view (snd (_checkType ids line lb p)).
Proof.
  rewrite !_checkType_cases. unfold return_init, session_view. simpl.
  repeat match goal with
         | |- context [if ?c then _ else _] => destruct c
         | |- context [let (_, _) := ?x in _] => destruct x
         end; split; reflexivity.
Qed.

(** A line is handled as it is in the view of the state, and what it emits
    comes after what was emitted before. *)
Lemma session_view_on_data (line : Buffer) (p : WARCParser B K) :
  session_view (on_data ids line p) = session_view (on_data ids line (session_view p))
  /\ emitted (on_data ids line p) =
       emitted p ++ emitted (on_data ids line (session_view p)).
Proof.
  unfold on_data.
  destruct (equals (begin ids) line).
  - change (_starting (session_view p)) with (_starting p).
    destruct (_starting p); split; reflexivity || (simpl; now rewrite app_nil_r).
  - change (_checkRecType (session_view p)) with (_checkRecType p).
    change (lastBegin (session_view p)) with (lastBegin p).
    destruct (_checkRecType p && negb (equals (empty ids) line)).
    + destruct (session_view_checkType line (lastBegin p) p) as (Ek & Ev).
      pose proof (_checkType_frame ids line (lastBegin p) p) as F.
      pose proof (_checkType_frame ids line (lastBegin p) (session_view p)) as F'.
      destruct (_checkType ids line (lastBegin p) p) as [k q].
      destruct (_checkType ids line (lastBegin p) (session_view p)) as [k' q'].
      simpl in *. subst k'.
      destruct F as (_ & _ & _ & _ & _ & _ & _ & Fe & _).
      destruct F' as (_ & _ & _ & _ & _ & _ & _ & Fe' & _).
      split.
      * unfold session_view in *. simpl. congruence.
      * rewrite Fe, Fe'. now rewrite app_nil_r.
    + destruct (equals (empty ids) line); split;
        reflexivity || (simpl; now rewrite app_nil_r).
Qed.

Lemma session_view_feed (lines : list Buffer) (p : WARCParser B K) :
  session_view (feed ids p lines) = session_view (feed ids (session_view p) lines)
  /\ emitted (feed ids p lines) =
       emitted p ++ emitted (feed ids (session_view p) lines).
Proof.
  revert p. induction lines as [|l lines IH]; intros p.
  - split; [reflexivity | simpl; now rewrite app_nil_r].
  - change (feed ids p (l :: lines)) with (feed ids (on_data ids l p) lines).
    change (feed ids (session_view p) (l :: lines))
      with (feed ids (on_data ids l (session_view p)) lines).
    destruct (session_view_on_data l p) as (V & E).
    destruct (IH (on_data ids l p)) as (V1 & E1).
    destruct (IH (on_data ids l (session_view p))) as (V2 & E2).
    split.
    + now rewrite V1, V2, V.
    + rewrite E1, E2, E, V, <- app_assoc. reflexivity.
Qed.

(** The notifications of the lines and of the end of the stream, after
    those emitted before, are those of the view of the state. *)
Lemma session_view_notifications (lines : list Buffer) (q : WARCParser B K) :
  emitted (on_end (feed ids q lines)) =
    emitted q ++ emitted (feed ids (session_view q) lines)
      ++ [EvDone (built (feed ids (session_view q) lines))].
Proof.
  destruct (session_view_feed lines q) as (V & E).
  assert (Bq : built (feed ids q lines) = built (feed ids (session_view q) lines)).
  { change (built (session_view (feed ids q lines))
            = built (session_view (feed ids (session_view q) lines))).
    now rewrite V. }
  now rewrite on_end_emitted, E, Bq, <- app_assoc.
Qed.

(** C9: two sessions that receive the same lines and then the end of the
    stream, on parsers that are not parsing and hold builders in the same
    state, emit the same notifications (['record'] notifications followed
    by one ['done'] notification, with the same records in the same order)
    if the parsers enter the sessions with the same type check flag and the
    same blank-line count, as two new parsers do, or if the first line is
    the begin sentinel.  The paths, [_foundType] and what the parsers have
    emitted and logged before do not matter. *)
Theorem sessions_agree
    (w1 w2 : string) (lines : list Buffer) (p1 p2 : WARCParser B K) :
  _parsing p1 = false ->
  _parsing p2 = false ->
  _wp p1 = path_string w1 ->
  _wp p2 = path_string w2 ->
  _builder p1 = _builder p2 ->
  (_checkRecType p1 = _checkRecType p2 /\ _crlfCounter p1 = _crlfCounter p2)
  \/ starts_with_begin ids lines = true ->
  exists (rs : list RecordModel) (r : RecordModel),
    emitted (session ids untildify p1 lines) = emitted p1 ++ map EvRecord rs ++ [EvDone r]
    /\ emitted (session ids untildify p2 lines) = emitted p2 ++ map EvRecord rs ++ [EvDone r].
Proof.
  intros P1 P2 W1 W2 Hb H.
  unfold session.
  rewrite (start_opens untildify (w := w1) p1 P1 W1),
          (start_opens untildify (w := w2) p2 P2 W2). cbn [snd].
  set (q1 := set_readStream _ (set_buildKey _ (set_lastBegin _ (set_parsing _
               (set_starting _ p1))))).
  set (q2 := set_readStream _ (set_buildKey _ (set_lastBegin _ (set_parsing _
               (set_starting _ p2))))).
  assert (F : feed ids (session_view q1) lines = feed ids (session_view q2) lines).
  { destruct H as [[Hc Hn] | Hl].
    - f_equal. unfold q1, q2, session_view. simpl. now rewrite Hc, Hn, Hb.
    - destruct lines as [|b rest]; [discriminate|]. simpl in Hl.
      change (feed ids (session_view q1) (b :: rest))
        with (feed ids (on_data ids b (session_view q1)) rest).
      change (feed ids (session_view q2) (b :: rest))
        with (feed ids (on_data ids b (session_view q2)) rest).
      f_equal. unfold on_data. rewrite Hl.
      unfold q1, q2, session_view. simpl. now rewrite Hb. }
  destruct (feed_emits_records ids lines (session_view q2)) as [rs E].
  exists rs, (built (feed ids (session_view q2) lines)).
  rewrite !session_view_notifications, F, E. simpl. auto.
Qed.

(** ** A listener of ['done'] that calls the entry points *)

(** X12: [start] called by a ['done'] listener is accepted, since the ['end']
    handler has cleared [_parsing] before it emits; the handler then goes
    on: it destroys the stream the call has just opened and clears the
    builder.  The parser is left parsing with a destroyed stream, and every
    later [start] is refused. *)
Theorem start_in_done_listener (w : string) (p : WARCParser B K) :
  _wp p = path_string w ->
  let q := on_end_with untildify [call_start] p in
  emitted q = emitted p ++ [EvDone (built p)]
  /\ _parsing q = true
  /\ _readStream q = Some (destroy (createReadStream (untildify w)))
  /\ stream_open q = false
  /\ _builder q = clear (_builder p)
  /\ start untildify q = (Return (js_bool false), q)
  /\ on_end_with untildify [] p = on_end p.
Proof.
  intros Hw. unfold on_end_with, listener_calls, call, start. simpl. rewrite Hw. simpl.
  repeat split.
Qed.

Lemma js_or_string (wp : PathValue) (w : string) :
  exists w', js_or wp (path_string w) = path_string w'.
Proof.
  unfold js_or. destruct wp as [| |s]; simpl; eauto.
  destruct (negb (String.eqb s EmptyString)); eauto.
Qed.

Lemma call_mid_end (c : Call) (p : WARCParser B K) :
  mid_end untildify p ->
  exists v q, call untildify c p = (Return v, q) /\ mid_end untildify q.
Proof.
  intros (w & W & S & P). destruct (_parsing p) eqn:Hp.
  - exists (js_bool false), p. split.
    + destruct c; simpl; unfold parseWARC, start; rewrite Hp; simpl; rewrite ?Hp;
        reflexivity.
    + exists w. rewrite Hp. auto.
  - destruct c as [|wp]; simpl.
    + rewrite (start_opens untildify (w := w) p Hp W). do 2 eexists. split; [reflexivity|].
      exists w. simpl. repeat split; auto. discriminate.
    + unfold parseWARC. rewrite Hp. simpl. rewrite W.
      destruct (js_or_string wp w) as [w' E]. rewrite E.
      rewrite (start_opens untildify (w := w') (set_wp (path_string w') p) Hp eq_refl).
      do 2 eexists. split; [reflexivity|].
      exists w'. simpl. repeat split; auto. discriminate.
Qed.

(** No call of a listener throws in the middle of the ['end'] handler. *)
Lemma listener_calls_mid_end (calls : list Call) (p : WARCParser B K) :
  mid_end untildify p ->
  exists q, listener_calls untildify calls p = (false, q) /\ mid_end untildify q.
Proof.
  revert p. induction calls as [|c calls IH]; intros p M; simpl; [eauto|].
  destruct (call_mid_end c M) as (v & q & E & Mq). rewrite E. auto.
Qed.

(** X10: in every state a parser can reach, calls of the entry points by a
    ['done'] listener included, a stream that has not been destroyed is held
    only while the parser is parsing; a parser that is parsing holds a
    stream, destroyed or not, on the configured path; and a parser that
    holds a stream has a path, which is why a parser without a path has
    never opened a session. *)
Theorem stream_open_only_while_parsing (p : WARCParser B K) :
  reachable_with_listeners ids untildify p ->
  (stream_open p = true -> _parsing p = true)
  /\ (_parsing p = true ->
      exists w s, _wp p = path_string w /\ _readStream p = Some s
                  /\ rs_path s = untildify w)
  /\ (_readStream p <> None -> exists w, _wp p = path_string w).
Proof.
  assert (St : forall q : WARCParser B K,
            ((stream_open q = true -> _parsing q = true)
             /\ (_parsing q = true ->
                 exists w s, _wp q = path_string w /\ _readStream q = Some s
                             /\ rs_path s = untildify w)
             /\ (_readStream q <> None -> exists w, _wp q = path_string w)) ->
            let q' := snd (start untildify q) in
            (stream_open q' = true -> _parsing q' = true)
            /\ (_parsing q' = true ->
                exists w s, _wp q' = path_string w /\ _readStream q' = Some s
                            /\ rs_path s = untildify w)
            /\ (_readStream q' <> None -> exists w, _wp q' = path_string w)).
  { intros q IH. unfold start. destruct (_parsing q) eqn:P; simpl; [now rewrite P|].
    destruct (_wp q) eqn:W; simpl; try (now rewrite P, W).
    repeat split; eauto. }
  induction 1 as [wp | p Hr IH | wp p Hr IH | p ev Hr IH Hs | p calls Hr IH Hs].
  - repeat split; try discriminate. simpl. congruence.
  - apply St, IH.
  - unfold parseWARC. apply St. destruct (negb (_parsing p)) eqn:P; [|exact IH].
    apply negb_true_iff in P. destruct IH as (I2 & _ & I1).
    split; [exact I2|]. split.
    + intros H. simpl in H. congruence.
    + intros S. destruct (I1 S) as [w W]. simpl. rewrite W. apply js_or_string.
  - destruct ev as [line | e |].
    + simpl. destruct (on_data_source ids line p) as (W & R & P).
      unfold stream_open in *. rewrite W, R, P. exact IH.
    + exact IH.
    + simpl. destruct IH as (_ & _ & I1). repeat split; try discriminate.
      * unfold stream_open. simpl. destruct (_readStream p); simpl; discriminate.
      * intros _. exact (I1 Hs).
  - destruct IH as (_ & _ & I1). destruct (I1 Hs) as [w W].
    assert (M : mid_end untildify (emit (EvDone (buildRecord (_builder p) (buildKey p)))
                           (set_parsing false p))).
    { exists w. simpl. repeat split; auto. discriminate. }
    destruct (listener_calls_mid_end calls M) as (q & E & (w' & W' & S' & P')).
    unfold on_end_with. simpl. rewrite E. simpl.
    repeat split.
    + unfold stream_open. simpl. destruct (_readStream q); simpl; discriminate.
    + intros Pq. exists w'. rewrite (P' Pq). simpl. eauto.
    + intros _. eauto.
Qed.

End SessionsCompared.

(** A new parser and a parser that has been through a session, on the
    warcinfo and the metadata record. *)
Lemma sessions_agree_witness :
  exists (rs : list RecordModel) (r : RecordModel),
    emitted (session SpecBuilder.fieldIdentifiers SpecBuilder.plain_path
               (new_WARCParser (path_string "b.warc"))
               (SpecBuilder.info_record ++ SpecBuilder.mdata_record))
    = [] ++ map EvRecord rs ++ [EvDone r]
    /\ emitted (session SpecBuilder.fieldIdentifiers SpecBuilder.plain_path
                  Reuse.first_session
                  (SpecBuilder.info_record ++ SpecBuilder.mdata_record))
       = emitted Reuse.first_session ++ map EvRecord rs ++ [EvDone r].
Proof.
  exact (sessions_agree SpecBuilder.fieldIdentifiers SpecBuilder.plain_path
           (w1 := "b.warc") (w2 := "a.warc")
           (SpecBuilder.info_record ++ SpecBuilder.mdata_record)
           (new_WARCParser (path_string "b.warc")) Reuse.first_session
           eq_refl eq_refl eq_refl eq_refl eq_refl (or_intror eq_refl)).
Defined.

(** Two sessions on the same lines that do not emit the same: the lines
    have a request type line before their begin line; the first session is
    on a new parser and ends with the type check flag set, the second is on
    the same parser and takes the type line for the type of a record. *)
Lemma reused_parser_counterexample :
  emitted Reuse.first_session = [EvDone unknown_record]
  /\ emitted Reuse.second_session =
       emitted Reuse.first_session
         ++ [EvDone {| type := Request;
                       headers := [(buf "WARC-Type", buf "request")];
                       payload := [] |}]
  /\ ~ (exists evs : list Event,
          emitted Reuse.first_session = [] ++ evs
          /\ emitted Reuse.second_session = emitted Reuse.first_session ++ evs).
Proof.
  split; [vm_compute; reflexivity|]. split; [vm_compute; reflexivity|].
  intros (evs & E1 & E2). vm_compute in E1, E2. subst evs. discriminate.
Qed.

(** [start] called by a ['done'] listener at the end of the first session. *)
Lemma start_in_done_listener_witness :
  _parsing (on_end_with SpecBuilder.plain_path [call_start] SpecBuilder.after_info) = true
  /\ stream_open (on_end_with SpecBuilder.plain_path [call_start] SpecBuilder.after_info)
     = false.
Proof.
  destruct (start_in_done_listener SpecBuilder.plain_path (w := "a.warc")
              SpecBuilder.after_info eq_refl) as (_ & P & _ & S & _).
  split; [exact P | exact S].
Defined.

(** The parser after such a listener is parsing and holds a stream on its
    path. *)
Lemma stream_open_only_while_parsing_witness :
  exists w s,
    _wp (on_end_with SpecBuilder.plain_path [call_parseWARC (path_string "b.warc")]
           SpecBuilder.opened) = path_string w
    /\ _readStream (on_end_with SpecBuilder.plain_path
                      [call_parseWARC (path_string "b.warc")] SpecBuilder.opened) = Some s
    /\ rs_path s = SpecBuilder.plain_path w.
Proof.
  assert (R : reachable_with_listeners SpecBuilder.fieldIdentifiers SpecBuilder.plain_path
                (on_end_with SpecBuilder.plain_path
                   [call_parseWARC (path_string "b.warc")] SpecBuilder.opened)).
  { apply rl_end_listener; [apply rl_start, rl_new | discriminate]. }
  exact (proj1 (proj2 (stream_open_only_while_parsing R)) eq_refl).
Defined.
